(** * Tweede Kamer fetch script: pagination loops, cleaning step, date-window fallback

    A shallow embedding of [oldScripts/tempCodeRunnerFile.py]:
    - [fetch_paginated_data]  (offset-based pagination of an OData endpoint),
    - [process_voting_data]   (the cleaning step on the vote table),
    - [fetch_coauthoring_data] (cursor-based pagination with offset fallback),
    - the vote part of [main] for the pre-election window.

    Console output ([print]) and pauses ([time.sleep]) are not modelled; the
    counters that only feed the progress messages are kept in the loop states
    so that the loops read like the source. *)

From Stdlib Require Import String Ascii ZArith Bool Arith Lia List.
From Stdlib Require Import DecimalString.
Import ListNotations.

Local Open Scope list_scope.

(** String concatenation, written apart from list concatenation. *)
Local Infix "+s+" := String.append (at level 60, right associativity).

(* ================================================================== *)
(** ** Tabular data, as far as the script uses pandas *)
(* ================================================================== *)

(** One cell of a table.  The API delivers flat JSON objects; a JSON [null]
    and a key missing from a record both end up as a missing value ([CNA],
    pandas' NaN/None/NaT).  [CTime] is a parsed UTC instant in nanoseconds
    since the epoch, the value of a [datetime64[ns, UTC]] column. *)
Inductive cell : Type :=
| CStr (s : string)
| CInt (z : Z)
| CBool (b : bool)
| CNA
| CTime (ns : Z).

Definition cell_eq_dec : forall a b : cell, {a = b} + {a <> b}.
Proof.
  decide equality;
    [ apply string_dec | apply Z.eq_dec | apply bool_dec | apply Z.eq_dec ].
Defined.

Definition row : Type := list cell.

Definition row_eq_dec : forall a b : row, {a = b} + {a <> b} :=
  list_eq_dec cell_eq_dec.

(** A JSON object with scalar fields, in key order. *)
Definition record : Type := list (string * cell).

(** A DataFrame: its column labels and its rows (one cell per column).
    Row labels (the index) are not modelled: the script never reads them and
    writes its CSV files with [index=False].  The frames the script builds
    from JSON records have distinct column labels and rows as long as the
    list of columns; on any other value a label is read at its first column
    and a cell that is not there as missing. *)
Record DataFrame : Type := mkDF {
  columns : list string;
  rows : list row
}.

(** [pd.DataFrame()] *)
Definition empty_frame : DataFrame := mkDF [] [].

(** [len(df)] *)
Definition len (df : DataFrame) : nat := length (rows df).

(** [df.empty]: some axis has length zero. *)
Definition empty (df : DataFrame) : bool :=
  (length (rows df) =? 0) || (length (columns df) =? 0).

(** [c in df.columns] *)
Definition mem_string (c : string) (l : list string) : bool :=
  existsb (String.eqb c) l.

Definition has_column (c : string) (df : DataFrame) : bool :=
  mem_string c (columns df).

(** Position of the first column labelled [c]. *)
Fixpoint column_index (c : string) (cols : list string) : option nat :=
  match cols with
  | [] => None
  | c' :: cols' =>
      if String.eqb c c' then Some 0
      else option_map S (column_index c cols')
  end.

(** The cell of row [r] under column [c], in a table with columns [cols]. *)
Definition get_cell (cols : list string) (r : row) (c : string) : cell :=
  match column_index c cols with
  | Some i => nth i r CNA
  | None => CNA
  end.

(** [df[mask]] for a row-wise boolean mask. *)
Definition select_rows (mask : row -> bool) (df : DataFrame) : DataFrame :=
  mkDF (columns df) (filter mask (rows df)).

(** [df[cs]] for a list of column labels. *)
Definition project_row (cols : list string) (cs : list string) (r : row) : row :=
  map (get_cell cols r) cs.

Definition select_columns (cs : list string) (df : DataFrame) : DataFrame :=
  mkDF cs (map (project_row (columns df) cs) (rows df)).

(** Keep the first occurrence of every element, skipping those in [seen]. *)
Fixpoint dedup_from {A : Type} (eq_dec : forall a b : A, {a = b} + {a <> b})
         (seen : list A) (l : list A) : list A :=
  match l with
  | [] => []
  | x :: l' =>
      if in_dec eq_dec x seen then dedup_from eq_dec seen l'
      else x :: dedup_from eq_dec (x :: seen) l'
  end.

(** [df.drop_duplicates()] (keep='first'; missing values compare equal). *)
Definition drop_duplicates (df : DataFrame) : DataFrame :=
  mkDF (columns df) (dedup_from row_eq_dec [] (rows df)).

(** [series.isin(values)] on one cell. *)
Definition isin (c : cell) (values : list cell) : bool :=
  if in_dec cell_eq_dec c values then true else false.

(** [pd.DataFrame(records)] for a list of JSON objects: the columns are the
    keys in order of first appearance, a key a record lacks gives [CNA]. *)
Fixpoint lookup_field (k : string) (r : record) : cell :=
  match r with
  | [] => CNA
  | (k', v) :: r' => if String.eqb k k' then v else lookup_field k r'
  end.

Definition field_names (recs : list record) : list string :=
  concat (map (map fst) recs).

Definition record_keys (recs : list record) : list string :=
  dedup_from string_dec [] (field_names recs).

Definition DataFrame_of (recs : list record) : DataFrame :=
  let cols := record_keys recs in
  mkDF cols (map (fun r => map (fun c => lookup_field c r) cols) recs).

(** [pd.concat(frames, ignore_index=True)]: outer join on the columns, in
    order of first appearance; rows in order. *)
Definition pd_concat (frames : list DataFrame) : DataFrame :=
  let cols := dedup_from string_dec [] (concat (map columns frames)) in
  mkDF cols
       (concat (map (fun df => map (project_row (columns df) cols) (rows df))
                    frames)).

(* ================================================================== *)
(** ** The cleaning step *)
(* ================================================================== *)

Definition vote_types : list cell := [CStr "Voor"; CStr "Tegen"].

Definition essential_cols : list string :=
  ["Besluit_Id"; "ActorFractie"; "Soort"; "GewijzigdOp"]%string.

(** [process_voting_data(df)] *)
Definition process_voting_data (df : DataFrame) : DataFrame :=
  if empty df then df
  else
    (* Filter Voor/Tegen votes *)
    let df :=
      if has_column "Soort" df
      then select_rows (fun r => isin (get_cell (columns df) r "Soort") vote_types) df
      else df in
    (* Select essential columns *)
    let cols := essential_cols in
    let available_cols := filter (fun c => has_column c df) cols in
    match available_cols with
    | [] => df
    | _ :: _ => drop_duplicates (select_columns available_cols df)
    end.

(* ================================================================== *)
(** ** HTTP requests *)
(* ================================================================== *)

(** What one pass through the [try] block obtains from
    [requests.get(url, ...)], [raise_for_status()] and [response.json()]:
    either an exception is raised, or a JSON payload arrives, of which the
    script reads the ["value"] array (absent: [None]) and the
    ["@odata.nextLink"] string (absent: [None]). *)
Inductive response (A : Type) : Type :=
| Raised
| Json (value : option (list A)) (next_link : option string).

Arguments Raised {A}.
Arguments Json {A} value next_link.

(** How far a loop got on the responses it was given: the loop variables,
    the responses not consumed, the URLs requested so far, and whether the
    loop reached its [break] ([finished]) or is still running with all the
    given responses used up. *)
Record run (S A : Type) : Type := mkRun {
  final : S;
  unread : list (response A);
  urls_sent : list string;
  finished : bool
}.

Arguments mkRun {S A} final unread urls_sent finished.
Arguments final {S A} r.
Arguments unread {S A} r.
Arguments urls_sent {S A} r.
Arguments finished {S A} r.

(** Truth value of an optional string ([None] and [""] are false). *)
Definition truthy (s : option string) : bool :=
  match s with
  | Some EmptyString => false
  | Some (String _ _) => true
  | None => false
  end.

(** The string held by an optional string that is [truthy]. *)
Definition text_of (s : option string) : string :=
  match s with
  | Some q => q
  | None => EmptyString
  end.

Definition BASE_URL : string := "https://gegevensmagazijn.tweedekamer.nl/OData/v4/2.0".
Definition BATCH_SIZE : Z := 250.

(** [f"{n}"] for an integer. *)
Definition str (n : Z) : string := NilZero.string_of_int (Z.to_int n).

(** [urllib.parse.quote(s)] with the default [safe='/']: letters, digits and
    [_.-~/] are kept, every other byte becomes [%XX] in upper-case hex. *)
Definition is_safe (c : ascii) : bool :=
  let n := nat_of_ascii c in
  ((65 <=? n) && (n <=? 90)) || ((97 <=? n) && (n <=? 122))
  || ((48 <=? n) && (n <=? 57))
  || existsb (Ascii.eqb c) (list_ascii_of_string "_.-~/").

Definition hex_digit (n : nat) : ascii :=
  nth n (list_ascii_of_string "0123456789ABCDEF") "0"%char.

Fixpoint quote (s : string) : string :=
  match s with
  | EmptyString => EmptyString
  | String c s' =>
      if is_safe c then String c (quote s')
      else
        let n := nat_of_ascii c in
        String "%"%char (String (hex_digit (n / 16)) (String (hex_digit (n mod 16)) (quote s')))
  end.

(* ================================================================== *)
(** ** Offset-based pagination: [fetch_paginated_data] *)
(* ================================================================== *)

(** The remote server is modelled by the responses it gives, in the order
    the requests are sent: every run of a loop against any server is a run
    against the sequence of that server's responses.  Each request consumes
    the next pending response and its URL is appended to the list of URLs
    sent so far.  A loop that is still running when the pending responses
    are used up has no result ([None]). *)

Module Paginated.

(** The loop variables of [fetch_paginated_data]. *)
Record state : Type := mkState {
  all_data : list DataFrame;
  skip : Z;
  batch_num : Z;
  total_records : Z
}.

Definition initial : state := mkState [] 0 1 0.

(** The URL built at the top of an iteration. *)
Definition url_of (endpoint : string) (filter_query : option string) (skip : Z)
  : string :=
  if truthy filter_query
  then BASE_URL +s+ "/" +s+ endpoint
       +s+ "?$filter=" +s+ quote (text_of filter_query)
       +s+ "&$top=" +s+ str BATCH_SIZE +s+ "&$skip=" +s+ str skip
  else BASE_URL +s+ "/" +s+ endpoint
       +s+ "?$top=" +s+ str BATCH_SIZE +s+ "&$skip=" +s+ str skip.

(** The [while True] loop. *)
Fixpoint loop (endpoint : string) (filter_query : option string)
         (pending : list (response record)) (st : state) (sent : list string)
  : run state record :=
  match pending with
  | [] => mkRun st [] sent false
  | resp :: pending' =>
      let url := url_of endpoint filter_query (skip st) in
      let sent' := sent ++ [url] in
      match resp with
      | Raised => mkRun st pending' sent' true
      | Json None _ => mkRun st pending' sent' true
      | Json (Some value) _ =>
          if (length value =? 0)%nat then mkRun st pending' sent' true
          else
            let batch_df := DataFrame_of value in
            let st1 := mkState (all_data st ++ [batch_df]) (skip st) (batch_num st)
                               (total_records st + Z.of_nat (len batch_df)) in
            if (Z.of_nat (len batch_df) <? BATCH_SIZE)%Z
            then mkRun st1 pending' sent' true
            else
              loop endpoint filter_query pending'
                   (mkState (all_data st1) (skip st1 + BATCH_SIZE)
                            (batch_num st1 + 1) (total_records st1))
                   sent'
      end
  end.

(** [fetch_paginated_data(endpoint, filter_query)]: the returned frame, the
    responses left over and the URLs requested; [None] if the responses run
    out before the loop ends. *)
Definition fetch_paginated_data (endpoint : string) (filter_query : option string)
           (pending : list (response record)) (sent : list string)
  : option (DataFrame * list (response record) * list string) :=
  let r := loop endpoint filter_query pending initial sent in
  if finished r then
    match all_data (final r) with
    | [] => Some (empty_frame, unread r, urls_sent r)
    | _ :: _ => Some (pd_concat (all_data (final r)), unread r, urls_sent r)
    end
  else None.

End Paginated.

(* ================================================================== *)
(** ** Cursor-based pagination: [fetch_coauthoring_data] *)
(* ================================================================== *)

Module Coauthoring.

Section Items.

(** The documents are kept as raw (nested) JSON items; the loop never looks
    inside them. *)
Context {item : Type}.

(** The loop variables of [fetch_coauthoring_data]. *)
Record state : Type := mkState {
  url : string;
  all_items : list item;
  seen : Z;
  batch_num : Z;
  skip : Z
}.

Definition filter_query (date_from date_to : string) : string :=
  "Verwijderd eq false " +s+ "and Soort eq 'Motie' "
  +s+ "and Datum ge " +s+ date_from +s+ " "
  +s+ "and Datum le " +s+ date_to.

Definition expand_query : string :=
  "DocumentActor($filter=Relatie eq 'Eerste ondertekenaar' or Relatie eq 'Mede ondertekenaar')".

Definition select_query : string := "Id,Datum,Soort,Titel,Onderwerp,DocumentActor".

(** The [params] dict, in insertion order. *)
Definition params (date_from date_to : string) : list (string * string) :=
  [ ("$filter", filter_query date_from date_to);
    ("$expand", expand_query);
    ("$select", select_query);
    ("$top", "250") ]%string.

Definition query_part (kv : string * string) : string :=
  fst kv +s+ "=" +s+ quote (snd kv).

(** The initial URL. *)
Definition initial_url (date_from date_to : string) : string :=
  let query_parts := map query_part (params date_from date_to) in
  let query_string := String.concat "&" query_parts in
  BASE_URL +s+ "/Document?" +s+ query_string.

(** The URL rebuilt in the fallback branch, for the new value of [skip]. *)
Definition fallback_url (date_from date_to : string) (skip : Z) : string :=
  let query_parts :=
    map query_part
        (filter (fun kv => negb (String.eqb (fst kv) "$skip"))
                (params date_from date_to)) in
  let query_parts := query_parts ++ ["$skip=" +s+ str skip] in
  let query_string := String.concat "&" query_parts in
  BASE_URL +s+ "/Document?" +s+ query_string.

Definition initial (date_from date_to : string) : state :=
  mkState (initial_url date_from date_to) [] 0 1 0.

(** The [while True] loop. *)
Fixpoint loop (date_from date_to : string)
         (pending : list (response item)) (st : state) (sent : list string)
  : run state item :=
  match pending with
  | [] => mkRun st [] sent false
  | resp :: pending' =>
      let sent' := sent ++ [url st] in
      match resp with
      | Raised => mkRun st pending' sent' true
      | Json payload_value next_link =>
          (* value = payload.get("value", []) *)
          let value := match payload_value with Some v => v | None => [] end in
          let st1 := mkState (url st) (all_items st ++ value)
                             (seen st + Z.of_nat (length value))
                             (batch_num st) (skip st) in
          (* Check if we got fewer records than requested (last batch) *)
          if (Z.of_nat (length value) <? 250)%Z
          then mkRun st1 pending' sent' true
          else
            let st2 :=
              (* If there's a next link, use it (preferred method) *)
              if truthy next_link
              then mkState (text_of next_link) (all_items st1) (seen st1)
                           (batch_num st1) (skip st1)
              else
                (* Fallback: use $skip if no next link but we got a full batch *)
                let skip' := (skip st1 + 250)%Z in
                mkState (fallback_url date_from date_to skip')
                        (all_items st1) (seen st1) (batch_num st1) skip' in
            loop date_from date_to pending'
                 (mkState (url st2) (all_items st2) (seen st2)
                          (batch_num st2 + 1) (skip st2))
                 sent'
      end
  end.

(** [fetch_coauthoring_data(date_from, date_to)]: the returned items, the
    responses left over and the URLs requested; [None] if the responses run
    out before the loop ends. *)
Definition fetch_coauthoring_data (date_from date_to : string)
           (pending : list (response item)) (sent : list string)
  : option (list item * list (response item) * list string) :=
  let r := loop date_from date_to pending (initial date_from date_to) sent in
  if finished r then Some (all_items (final r), unread r, urls_sent r)
  else None.

End Items.

Arguments state : clear implicits.

End Coauthoring.

(* ================================================================== *)
(** ** The date-window fallback of [main] (pre-election window) *)
(* ================================================================== *)

(** Days from 1970-01-01 to the civil date [y]-[m]-[d] (proleptic Gregorian
    calendar). *)
Definition days_from_civil (y m d : Z) : Z :=
  (let y' := if m <=? 2 then y - 1 else y in
   let era := y' / 400 in
   let yoe := y' - era * 400 in
   let mp := if m <=? 2 then m + 9 else m - 3 in
   let doy := (153 * mp + 2) / 5 + d - 1 in
   let doe := yoe * 365 + yoe / 4 - yoe / 100 + doy in
   era * 146097 + doe - 719468)%Z.

(** [pd.Timestamp("y-m-d hh:mm:ss", tz='UTC')], in nanoseconds since the
    epoch. *)
Definition Timestamp (y m d hh mm ss : Z) : Z :=
  ((days_from_civil y m d * 86400 + hh * 3600 + mm * 60 + ss) * 1000000000)%Z.

Definition pre_filter : string :=
  "GewijzigdOp ge 2022-11-22T00:00:00Z and GewijzigdOp le 2023-11-21T23:59:59Z".

Definition pre_start_dt : Z := Timestamp 2022 11 22 0 0 0.
Definition pre_end_dt : Z := Timestamp 2023 11 21 23 59 59.

(** Apply [f] to the cell at position [i] of a row. *)
Fixpoint map_nth (i : nat) (f : cell -> cell) (r : row) : row :=
  match r with
  | [] => []
  | x :: r' =>
      match i with
      | O => f x :: r'
      | S i' => x :: map_nth i' f r'
      end
  end.

(** [df[c] = f(df[c])] for a column [c] of [df]. *)
Definition assign_column (c : string) (f : cell -> cell) (df : DataFrame)
  : DataFrame :=
  match column_index c (columns df) with
  | Some i => mkDF (columns df) (map (map_nth i f) (rows df))
  | None => df
  end.

(** [(df[c] >= lo) & (df[c] <= hi)] on one row of a datetime column: a
    comparison with a missing instant is false. *)
Definition between (cols : list string) (c : string) (lo hi : Z) (r : row) : bool :=
  match get_cell cols r c with
  | CTime t => (lo <=? t)%Z && (t <=? hi)%Z
  | _ => false
  end.

Section Main.

(** [pd.to_datetime(x, format='ISO8601', errors='coerce', utc=True)] on one
    value: the UTC instant in nanoseconds, or [None] where pandas gives NaT.
    The parser belongs to pandas and is left open here. *)
Variable to_datetime : cell -> option Z.

Definition to_datetime_cell (c : cell) : cell :=
  match to_datetime c with
  | Some ns => CTime ns
  | None => CNA
  end.

(** The vote fetch of the pre-election window with its fallback: the value
    of [pre_data] when [main] reaches [if not pre_data.empty:]. *)
Definition main_pre_data (pending : list (response record)) (sent : list string)
  : option (DataFrame * list (response record) * list string) :=
  match Paginated.fetch_paginated_data "Stemming" (Some pre_filter) pending sent with
  | None => None
  | Some (pre_data, pending1, sent1) =>
      (* If filter failed, fetch all and filter in Python *)
      if empty pre_data then
        match Paginated.fetch_paginated_data "Stemming" None pending1 sent1 with
        | None => None
        | Some (all_data, pending2, sent2) =>
            if negb (empty all_data) then
              let processed := process_voting_data all_data in
              if has_column "GewijzigdOp" processed then
                let processed :=
                  assign_column "GewijzigdOp" to_datetime_cell processed in
                let pre_data :=
                  select_rows
                    (between (columns processed) "GewijzigdOp"
                             pre_start_dt pre_end_dt)
                    processed in
                Some (pre_data, pending2, sent2)
              else Some (pre_data, pending2, sent2)
            else Some (pre_data, pending2, sent2)
        end
      else Some (pre_data, pending1, sent1)
  end.

End Main.

(* ================================================================== *)
(** ** The cleaning step, read off its branches *)
(* ================================================================== *)

(** The vote-type test of the cleaning step. *)
Definition is_vote (cols : list string) (r : row) : bool :=
  isin (get_cell cols r "Soort") vote_types.

(** The rows the vote-type filter of the cleaning step lets through. *)
Definition kept_rows (df : DataFrame) : list row :=
  if has_column "Soort" df
  then filter (is_vote (columns df)) (rows df)
  else rows df.

(** The columns kept by the projection, as a function of the table's
    columns. *)
Definition available (cols : list string) : list string :=
  filter (fun c => mem_string c cols) essential_cols.

(** The cleaning step as the specification words it: keep the rows whose
    vote type is "Voor" or "Tegen", project to the four fixed columns, drop
    exact duplicate rows. *)
Definition clean_as_specified (df : DataFrame) : DataFrame :=
  drop_duplicates
    (select_columns essential_cols
       (select_rows (is_vote (columns df)) df)).

(** A table with a vote-type column missing, and an empty table that has a
    column besides the four. *)
Definition votes_without_Soort : DataFrame :=
  mkDF ["Besluit_Id"; "ActorFractie"; "GewijzigdOp"]%string
       [[CStr "b-1"; CStr "VVD"; CStr "2023-01-10T12:00:00Z"]].

Definition no_votes_five_columns : DataFrame :=
  mkDF ["Id"; "Besluit_Id"; "ActorFractie"; "Soort"; "GewijzigdOp"]%string [].

(* ================================================================== *)
(** ** Sequences of responses *)
(* ================================================================== *)

(** The records a response delivers (none if the request failed or the
    payload has no ["value"]). *)
Definition page_of {A : Type} (r : response A) : list A :=
  match r with
  | Json (Some value) _ => value
  | _ => []
  end.

(** A full page: a payload with at least 250 records. *)
Definition is_full {A : Type} (r : response A) : bool :=
  match r with
  | Json (Some value) _ => (250 <=? Z.of_nat (length value))%Z
  | _ => false
  end.

(** A short page: a payload with fewer than 250 records, possibly none. *)
Definition is_short {A : Type} (r : response A) : bool :=
  match r with
  | Json (Some value) _ => (Z.of_nat (length value) <? 250)%Z
  | _ => false
  end.

(** The requests of [fetch_paginated_data] for [k] successive pages,
    starting at offset [skip]. *)
Definition requests (endpoint : string) (filter_query : option string)
           (skip : Z) (k : nat) : list string :=
  map (fun i => Paginated.url_of endpoint filter_query (skip + 250 * Z.of_nat i)%Z)
      (seq 0 k).

(** The ["@odata.nextLink"] of a response. *)
Definition link_of {A : Type} (r : response A) : option string :=
  match r with
  | Json _ next_link => next_link
  | Raised => None
  end.

(** The loop variables with which [fetch_coauthoring_data] enters its next
    iteration after a full page [r]: the items are appended and counted, and
    either the next link becomes the URL, or [skip] grows by 250 and the URL
    is rebuilt from the parameters. *)
Definition advance {item : Type} (date_from date_to : string)
           (st : Coauthoring.state item) (r : response item)
  : Coauthoring.state item :=
  if truthy (link_of r)
  then Coauthoring.mkState
         (text_of (link_of r))
         (Coauthoring.all_items st ++ page_of r)
         (Coauthoring.seen st + Z.of_nat (length (page_of r)))
         (Coauthoring.batch_num st + 1)
         (Coauthoring.skip st)
  else Coauthoring.mkState
         (Coauthoring.fallback_url date_from date_to (Coauthoring.skip st + 250))
         (Coauthoring.all_items st ++ page_of r)
         (Coauthoring.seen st + Z.of_nat (length (page_of r)))
         (Coauthoring.batch_num st + 1)
         (Coauthoring.skip st + 250)%Z.

(** The URLs requested while the full pages [rs] come in, one per page. *)
Fixpoint visited {item : Type} (date_from date_to : string)
         (st : Coauthoring.state item) (rs : list (response item))
  : list string :=
  match rs with
  | [] => []
  | r :: rs' =>
      Coauthoring.url st :: visited date_from date_to (advance date_from date_to st r) rs'
  end.

(** The number of fallback steps among the full pages [rs]: those without a
    usable next link. *)
Definition fallback_steps {A : Type} (rs : list (response A)) : nat :=
  length (filter (fun r => negb (truthy (link_of r))) rs).

(** The client-side window test on a row of the cleaned table: the row's
    ["GewijzigdOp"] parses to an instant between [lo] and [hi], both
    included. *)
Definition within_window (to_datetime : cell -> option Z) (lo hi : Z)
           (cols : list string) (r : row) : bool :=
  match to_datetime (get_cell cols r "GewijzigdOp") with
  | Some t => (lo <=? t)%Z && (t <=? hi)%Z
  | None => false
  end.

(** A parser for the timestamps the API sends, [YYYY-MM-DDThh:mm:ssZ], used
    to run the fallback on sample data. *)
Definition digit (c : ascii) : option Z :=
  let n := nat_of_ascii c in
  if (48 <=? n) && (n <=? 57) then Some (Z.of_nat (n - 48)) else None.

Fixpoint number (acc : Z) (cs : list ascii) : option Z :=
  match cs with
  | [] => Some acc
  | c :: cs' =>
      match digit c with
      | Some d => number (10 * acc + d) cs'
      | None => None
      end
  end.

Definition parse_utc (c : cell) : option Z :=
  match c with
  | CStr s =>
      match list_ascii_of_string s with
      | [y1; y2; y3; y4; dash1; m1; m2; dash2; d1; d2; sep;
         h1; h2; colon1; n1; n2; colon2; s1; s2; zulu] =>
          if forallb (fun p => Ascii.eqb (fst p) (snd p))
                     [(dash1, "-"); (dash2, "-"); (sep, "T");
                      (colon1, ":"); (colon2, ":"); (zulu, "Z")]%char
          then
            match number 0 [y1; y2; y3; y4], number 0 [m1; m2], number 0 [d1; d2],
                  number 0 [h1; h2], number 0 [n1; n2], number 0 [s1; s2] with
            | Some y, Some m, Some d, Some hh, Some mm, Some ss =>
                Some (Timestamp y m d hh mm ss)
            | _, _, _, _, _, _ => None
            end
          else None
      | _ => None
      end
  | _ => None
  end.

(** Sample data for the fallback: five votes around the bounds of the
    pre-election window. *)
Definition sample_vote (id : Z) (party soort stamp : string) : record :=
  [("Id", CInt id); ("Besluit_Id", CStr "b-1"); ("ActorFractie", CStr party);
   ("Soort", CStr soort); ("GewijzigdOp", CStr stamp)]%string.

Definition sample_votes : list record :=
  [sample_vote 1 "VVD" "Voor" "2022-11-22T00:00:00Z";
   sample_vote 2 "PVV" "Voor" "2022-11-21T23:59:59Z";
   sample_vote 3 "SP" "Tegen" "2023-11-21T23:59:59Z";
   sample_vote 4 "CDA" "Tegen" "2023-11-22T00:00:00Z";
   sample_vote 5 "D66" "Niet deelgenomen" "2023-01-10T12:00:00Z"]%string.

(* ================================================================== *)
(** ** The rest of the vote part of [main] *)
(* ================================================================== *)

Definition post_filter : string :=
  "GewijzigdOp ge 2024-07-05T00:00:00Z and GewijzigdOp le 2025-07-04T23:59:59Z".

Definition post_start_dt : Z := Timestamp 2024 7 5 0 0 0.
Definition post_end_dt : Z := Timestamp 2025 7 4 23 59 59.

(** [series.nunique()]: the number of distinct values, missing ones left
    out. *)
Definition is_na (c : cell) : bool :=
  match c with
  | CNA => true
  | _ => false
  end.

Definition nunique (c : string) (df : DataFrame) : nat :=
  length (dedup_from cell_eq_dec []
            (filter (fun x => negb (is_na x))
                    (map (fun r => get_cell (columns df) r c) (rows df)))).

(** What the vote part of [main] does for one window once the data is
    there: the table written with [to_csv] and the three numbers of the
    summary line; the table written and a [KeyError] raised by the summary
    line, which reads the columns ["Besluit_Id"] and ["ActorFractie"]; or
    nothing written and the "No voting data found" message. *)
Inductive report : Type :=
| Saved (csv : DataFrame) (votes motions parties : nat)
| SavedThenKeyError (csv : DataFrame)
| NoData.

Definition csv_of (rep : report) : option DataFrame :=
  match rep with
  | Saved csv _ _ _ => Some csv
  | SavedThenKeyError csv => Some csv
  | NoData => None
  end.

Section MainVotes.

Variable to_datetime : cell -> option Z.

(** The vote fetch of the post-formation window with its fallback: the value
    of [post_data] when [main] reaches [if not post_data.empty:]. *)
Definition main_post_data (pending : list (response record)) (sent : list string)
  : option (DataFrame * list (response record) * list string) :=
  match Paginated.fetch_paginated_data "Stemming" (Some post_filter) pending sent with
  | None => None
  | Some (post_data, pending1, sent1) =>
      (* If filter failed, fetch all and filter in Python *)
      if empty post_data then
        match Paginated.fetch_paginated_data "Stemming" None pending1 sent1 with
        | None => None
        | Some (all_data, pending2, sent2) =>
            if negb (empty all_data) then
              let processed := process_voting_data all_data in
              if has_column "GewijzigdOp" processed then
                let processed :=
                  assign_column "GewijzigdOp" (to_datetime_cell to_datetime)
                                processed in
                let post_data :=
                  select_rows
                    (between (columns processed) "GewijzigdOp"
                             post_start_dt post_end_dt)
                    processed in
                Some (post_data, pending2, sent2)
              else Some (post_data, pending2, sent2)
            else Some (post_data, pending2, sent2)
        end
      else Some (post_data, pending1, sent1)
  end.

(** [main] from [if not pre_data.empty:] to the end of the vote part of the
    pre-election window. *)
Definition pre_report (pre_data : DataFrame) : report :=
  if negb (empty pre_data) then
    let pre_processed := process_voting_data pre_data in
    let pre_processed :=
      if has_column "GewijzigdOp" pre_processed then
        let pre_processed :=
          assign_column "GewijzigdOp" (to_datetime_cell to_datetime)
                        pre_processed in
        select_rows
          (between (columns pre_processed) "GewijzigdOp" pre_start_dt pre_end_dt)
          pre_processed
      else pre_processed in
    (* pre_processed.to_csv(...), then the summary line *)
    if has_column "Besluit_Id" pre_processed
       && has_column "ActorFractie" pre_processed
    then Saved pre_processed (len pre_processed)
               (nunique "Besluit_Id" pre_processed)
               (nunique "ActorFractie" pre_processed)
    else SavedThenKeyError pre_processed
  else NoData.

(** The vote part of [main] for the pre-election window. *)
Definition main_pre_votes (pending : list (response record)) (sent : list string)
  : option (report * list (response record) * list string) :=
  match main_pre_data to_datetime pending sent with
  | None => None
  | Some (pre_data, pending', sent') => Some (pre_report pre_data, pending', sent')
  end.

End MainVotes.

(** The window as the specification words it, by dates: the instant falls
    on a day from 2022-11-22 to 2023-11-21, both days included. *)
Definition on_window_dates (t : Z) : bool :=
  (Timestamp 2022 11 22 0 0 0 <=? t)%Z && (t <? Timestamp 2023 11 22 0 0 0)%Z.

(** The sample parser, extended to timestamps with one decimal of the
    second: [YYYY-MM-DDThh:mm:ss.fZ]. *)
Definition parse_utc_fraction (c : cell) : option Z :=
  match c with
  | CStr s =>
      match list_ascii_of_string s with
      | [y1; y2; y3; y4; dash1; m1; m2; dash2; d1; d2; sep;
         h1; h2; colon1; n1; n2; colon2; s1; s2; dot; f; zulu] =>
          if Ascii.eqb dot "."
          then
            match parse_utc (CStr (string_of_list_ascii
                                     [y1; y2; y3; y4; dash1; m1; m2; dash2; d1; d2;
                                      sep; h1; h2; colon1; n1; n2; colon2; s1; s2;
                                      zulu])),
                  digit f with
            | Some t, Some tenths => Some (t + tenths * 100000000)%Z
            | _, _ => None
            end
          else None
      | _ => parse_utc c
      end
  | _ => None
  end.

(* ================================================================== *)
(** * Properties *)
(* ================================================================== *)

(** ** Lists without duplicates *)

Section Dedup.

Context {A : Type} (eq_dec : forall a b : A, {a = b} + {a <> b}).

Lemma dedup_from_length (l : list A) :
  forall seen, length (dedup_from eq_dec seen l) <= length l.
Proof.
  induction l as [|x l IH]; intros seen; simpl.
  - apply Nat.le_refl.
  - destruct (in_dec eq_dec x seen).
    + apply Nat.le_trans with (length l); [apply IH | apply Nat.le_succ_diag_r].
    + simpl. apply le_n_S, IH.
Qed.

Lemma dedup_from_In (l : list A) :
  forall seen x, In x (dedup_from eq_dec seen l) <-> In x l /\ ~ In x seen.
Proof.
  induction l as [|y l IH]; intros seen x; simpl.
  - tauto.
  - destruct (in_dec eq_dec y seen) as [Hy|Hy].
    + rewrite IH. split.
      * intros [H1 H2]. auto.
      * intros [[->|H1] H2]; [contradiction | auto].
    + simpl. rewrite IH. simpl. split.
      * intros [->|[H1 H2]]; [auto | ]. split; [auto | tauto].
      * intros [[->|H1] H2]; [auto | ].
        destruct (eq_dec y x) as [->|Hne]; [auto | right; tauto].
Qed.

Lemma dedup_from_idempotent (l : list A) :
  forall seen,
    dedup_from eq_dec seen (dedup_from eq_dec seen l) = dedup_from eq_dec seen l.
Proof.
  induction l as [|x l IH]; intros seen; simpl; [reflexivity|].
  destruct (in_dec eq_dec x seen) as [Hx|Hx]; [apply IH|].
  simpl. destruct (in_dec eq_dec x seen); [contradiction|].
  f_equal. apply IH.
Qed.

(** The list [seen] matters through membership only. *)
Lemma dedup_from_seen_ext (l : list A) :
  forall seen seen',
    (forall x, In x seen <-> In x seen') ->
    dedup_from eq_dec seen l = dedup_from eq_dec seen' l.
Proof.
  induction l as [|x l IH]; intros seen seen' Hext; simpl; [reflexivity|].
  destruct (in_dec eq_dec x seen) as [Hx|Hx];
    destruct (in_dec eq_dec x seen') as [Hx'|Hx'].
  - apply IH, Hext.
  - exfalso. apply Hx', Hext, Hx.
  - exfalso. apply Hx, Hext, Hx'.
  - f_equal. apply IH. intros y. simpl. rewrite Hext. tauto.
Qed.

Lemma dedup_from_app (l1 l2 : list A) :
  forall seen,
    dedup_from eq_dec seen (l1 ++ l2)
    = dedup_from eq_dec seen l1 ++ dedup_from eq_dec (l1 ++ seen) l2.
Proof.
  induction l1 as [|x l1 IH]; intros seen; simpl; [reflexivity|].
  destruct (in_dec eq_dec x seen) as [Hx|Hx].
  - rewrite IH. f_equal. apply dedup_from_seen_ext.
    intros y. rewrite !in_app_iff. simpl. rewrite in_app_iff.
    split; [tauto|]. intros [->|[H|H]]; auto.
  - simpl. rewrite IH. do 2 f_equal. apply dedup_from_seen_ext.
    intros y. rewrite !in_app_iff. simpl. rewrite in_app_iff. tauto.
Qed.

End Dedup.

(** ** Columns and projections *)

Lemma mem_string_In (c : string) (l : list string) :
  mem_string c l = true <-> In c l.
Proof.
  unfold mem_string. rewrite existsb_exists. split.
  - intros [x [Hx Heq]]. apply String.eqb_eq in Heq. subst. exact Hx.
  - intros H. exists c. split; [exact H | apply String.eqb_refl].
Qed.

Lemma column_index_map (c : string) (cs : list string) :
  mem_string c cs = true ->
  forall (f : string -> cell),
    match column_index c cs with
    | Some i => nth i (map f cs) CNA = f c
    | None => False
    end.
Proof.
  induction cs as [|c' cs IH]; simpl; [discriminate|].
  intros H f. destruct (String.eqb c c') eqn:E.
  - apply String.eqb_eq in E. subst. reflexivity.
  - simpl in H. specialize (IH H f).
    destruct (column_index c cs); simpl; [exact IH | contradiction].
Qed.

(** Reading a projected row under one of the projected columns gives the
    cell of the original row. *)
Lemma get_cell_project (cols cs : list string) (r : row) (c : string) :
  mem_string c cs = true ->
  get_cell cs (project_row cols cs r) c = get_cell cols r c.
Proof.
  intros H. unfold get_cell at 1, project_row.
  pose proof (column_index_map c cs H (get_cell cols r)) as Hi.
  destruct (column_index c cs); [exact Hi | contradiction].
Qed.

Lemma project_row_project (cols cs : list string) (r : row) :
  project_row cs cs (project_row cols cs r) = project_row cols cs r.
Proof.
  unfold project_row at 1 3. apply map_ext_in. intros c Hc.
  apply get_cell_project, mem_string_In, Hc.
Qed.

Lemma available_available (cols : list string) :
  available (available cols) = available cols.
Proof.
  unfold available. apply filter_ext_in. intros c Hc.
  destruct (mem_string c cols) eqn:E.
  - apply mem_string_In, filter_In. auto.
  - destruct (mem_string c (filter (fun c0 => mem_string c0 cols) essential_cols)) eqn:E';
      [|reflexivity].
    apply mem_string_In, filter_In in E'. destruct E' as [_ E']. congruence.
Qed.

Lemma filter_all {X : Type} (p : X -> bool) (l : list X) :
  (forall x, In x l -> p x = true) -> filter p l = l.
Proof.
  induction l as [|x l IH]; simpl; intros H; [reflexivity|].
  rewrite (H x (or_introl eq_refl)). f_equal. apply IH. auto.
Qed.

Lemma map_fixed {X : Type} (f : X -> X) (l : list X) :
  (forall x, In x l -> f x = x) -> map f l = l.
Proof.
  intros H. rewrite <- (map_id l) at 2. apply map_ext_in, H.
Qed.

(** [process_voting_data], with its branches spelled out. *)
Lemma process_voting_data_cases (df : DataFrame) :
  process_voting_data df =
  if empty df then df
  else
    let kept := if has_column "Soort" df
                then filter (is_vote (columns df)) (rows df)
                else rows df in
    match available (columns df) with
    | [] => mkDF (columns df) kept
    | c :: cs =>
        mkDF (c :: cs)
             (dedup_from row_eq_dec []
                (map (project_row (columns df) (c :: cs)) kept))
    end.
Proof.
  unfold process_voting_data. destruct (empty df); [reflexivity|].
  destruct df as [cols rs].
  unfold has_column, select_rows, available, is_vote. cbn [columns rows].
  destruct (mem_string "Soort" cols); cbv zeta; cbn [columns rows];
    destruct (filter (fun c => mem_string c cols) essential_cols);
    reflexivity.
Qed.

Lemma Soort_available (cols : list string) :
  mem_string "Soort" cols = true -> mem_string "Soort" (available cols) = true.
Proof.
  intros H. apply mem_string_In, filter_In. split; [|exact H].
  unfold essential_cols. simpl. auto.
Qed.

Lemma available_sub (cols : list string) (c : string) :
  mem_string c (available cols) = true -> mem_string c cols = true.
Proof.
  intros H. apply mem_string_In, filter_In in H. tauto.
Qed.

(** ** The cleaning step *)

(** C2, as stated, fails: without a ["Soort"] column the row is kept and the
    result has three columns, and an empty table is handed back with all of
    its columns. *)
Lemma process_voting_data_not_as_specified :
  process_voting_data votes_without_Soort
  = mkDF ["Besluit_Id"; "ActorFractie"; "GewijzigdOp"]%string
         [[CStr "b-1"; CStr "VVD"; CStr "2023-01-10T12:00:00Z"]]
  /\ clean_as_specified votes_without_Soort = mkDF essential_cols []
  /\ process_voting_data votes_without_Soort
     <> clean_as_specified votes_without_Soort
  /\ columns (process_voting_data no_votes_five_columns) <> essential_cols.
Proof.
  repeat split; try reflexivity; vm_compute; discriminate.
Qed.

Lemma available_all (cols : list string) :
  forallb (fun c => mem_string c cols) essential_cols = true ->
  available cols = essential_cols.
Proof.
  intros H. unfold available. apply filter_all.
  apply forallb_forall. exact H.
Qed.

(** C2 (amended): the cleaning step returns every empty table unchanged,
    whatever its columns, so that the result is empty too; and on a table
    that is not empty and has the four columns it keeps exactly the rows
    whose vote type is "Voor" or "Tegen", projects them to the four columns
    Besluit_Id, ActorFractie, Soort, GewijzigdOp and drops exact duplicate
    rows.  The function is total. *)
Theorem process_voting_data_four_columns (df : DataFrame) :
  (empty df = true ->
   process_voting_data df = df /\ empty (process_voting_data df) = true)
  /\ (empty df = false ->
      forallb (fun c => has_column c df) essential_cols = true ->
      process_voting_data df = clean_as_specified df).
Proof.
  split.
  - intros E. unfold process_voting_data. rewrite E. split; [reflexivity | exact E].
  - intros E H. rewrite process_voting_data_cases, E.
    assert (HS : has_column "Soort" df = true).
    { apply (proj1 (forallb_forall _ _) H). unfold essential_cols. simpl. auto. }
    rewrite HS. cbv zeta. unfold has_column in H.
    rewrite (available_all _ H). reflexivity.
Qed.

Lemma process_voting_data_four_columns_witness :
  let df := mkDF ["Id"; "Besluit_Id"; "Soort"; "ActorFractie"; "GewijzigdOp"]%string
                 [[CInt 1; CStr "b-1"; CStr "Voor"; CStr "VVD"; CStr "2023-01-10T12:00:00Z"];
                  [CInt 2; CStr "b-1"; CStr "Niet deelgenomen"; CStr "PVV"; CStr "2023-01-10T12:00:00Z"];
                  [CInt 3; CStr "b-1"; CStr "Voor"; CStr "VVD"; CStr "2023-01-10T12:00:00Z"];
                  [CInt 4; CStr "b-1"; CStr "Tegen"; CStr "SP"; CNA]] in
  (empty df = false
   /\ forallb (fun c => has_column c df) essential_cols = true
   /\ process_voting_data df
      = mkDF essential_cols
             [[CStr "b-1"; CStr "VVD"; CStr "Voor"; CStr "2023-01-10T12:00:00Z"];
              [CStr "b-1"; CStr "SP"; CStr "Tegen"; CNA]])
  /\ (empty empty_frame = true
      /\ process_voting_data empty_frame = empty_frame)
  /\ (empty no_votes_five_columns = true
      /\ process_voting_data no_votes_five_columns = no_votes_five_columns
      /\ empty (process_voting_data no_votes_five_columns) = true).
Proof.
  intros df. split; [|split].
  - split; [reflexivity|]. split; [reflexivity|].
    rewrite (proj2 (process_voting_data_four_columns df) eq_refl eq_refl).
    reflexivity.
  - split; [reflexivity|].
    exact (proj1 (proj1 (process_voting_data_four_columns empty_frame) eq_refl)).
  - split; [reflexivity|].
    exact (proj1 (process_voting_data_four_columns no_votes_five_columns) eq_refl).
Defined.

(** C6: cleaning never introduces rows. *)
Theorem process_voting_data_length (df : DataFrame) :
  len (process_voting_data df) <= len df.
Proof.
  unfold len. rewrite process_voting_data_cases.
  destruct (empty df); [apply Nat.le_refl|]. cbv zeta.
  assert (Hk : length (if has_column "Soort" df
                       then filter (is_vote (columns df)) (rows df)
                       else rows df) <= length (rows df)).
  { destruct (has_column "Soort" df);
      [apply filter_length_le | apply Nat.le_refl]. }
  destruct (available (columns df)); cbn [rows]; [exact Hk|].
  eapply Nat.le_trans; [apply dedup_from_length|].
  rewrite length_map. exact Hk.
Qed.

(** The rows that survive the vote-type filter of a table still pass the
    filter after projection. *)
Lemma is_vote_project (cols : list string) (r : row) :
  mem_string "Soort" cols = true ->
  is_vote (available cols) (project_row cols (available cols) r) = is_vote cols r.
Proof.
  intros H. unfold is_vote. rewrite get_cell_project; [reflexivity|].
  apply Soort_available, H.
Qed.

Lemma process_voting_data_unprojected (df : DataFrame) :
  empty df = false -> available (columns df) = [] ->
  process_voting_data df = mkDF (columns df) (kept_rows df).
Proof.
  intros E Hav. rewrite process_voting_data_cases, E. cbv zeta.
  rewrite Hav. reflexivity.
Qed.

Lemma process_voting_data_projected (df : DataFrame) :
  empty df = false -> available (columns df) <> [] ->
  process_voting_data df
  = mkDF (available (columns df))
         (dedup_from row_eq_dec []
            (map (project_row (columns df) (available (columns df)))
                 (kept_rows df))).
Proof.
  intros E Hav. rewrite process_voting_data_cases, E. cbv zeta.
  destruct (available (columns df)); [contradiction | reflexivity].
Qed.

Lemma process_voting_data_empty (df : DataFrame) :
  empty df = true -> process_voting_data df = df.
Proof.
  intros E. unfold process_voting_data. rewrite E. reflexivity.
Qed.

Lemma no_Soort_unprojected (df : DataFrame) :
  available (columns df) = [] -> has_column "Soort" df = false.
Proof.
  intros Hav. destruct (has_column "Soort" df) eqn:HS; [|reflexivity].
  apply Soort_available in HS. rewrite Hav in HS. discriminate.
Qed.

(** C5: cleaning is idempotent. *)
Theorem process_voting_data_idempotent (df : DataFrame) :
  process_voting_data (process_voting_data df) = process_voting_data df.
Proof.
  destruct (empty df) eqn:E.
  { rewrite (process_voting_data_empty df E).
    apply process_voting_data_empty, E. }
  destruct (list_eq_dec string_dec (available (columns df)) []) as [Hav|Hav].
  - (* no essential column: nothing was projected, and there is no vote type *)
    rewrite (process_voting_data_unprojected df E Hav).
    unfold kept_rows. rewrite (no_Soort_unprojected df Hav).
    destruct df as [cols rs]. cbn [columns rows] in *.
    rewrite process_voting_data_unprojected; cbn [columns rows]; auto.
    unfold kept_rows.
    rewrite (no_Soort_unprojected (mkDF cols rs) Hav). reflexivity.
  - rewrite (process_voting_data_projected df E Hav).
    set (av := available (columns df)) in *.
    set (out := dedup_from row_eq_dec []
                  (map (project_row (columns df) av) (kept_rows df))).
    destruct (empty (mkDF av out)) eqn:E'.
    { apply process_voting_data_empty, E'. }
    assert (Hav' : available av = av) by apply available_available.
    rewrite process_voting_data_projected;
      cbn [columns rows]; [|exact E'|rewrite Hav'; exact Hav].
    rewrite Hav'. f_equal.
    assert (Hout : forall r', In r' out ->
              exists r, In r (kept_rows df) /\ r' = project_row (columns df) av r).
    { intros r' Hr'. apply dedup_from_In in Hr'. destruct Hr' as [Hr' _].
      apply in_map_iff in Hr'. destruct Hr' as [r [<- Hr]]. eauto. }
    assert (Hkept : kept_rows (mkDF av out) = out).
    { unfold kept_rows at 1, has_column. cbn [columns rows].
      destruct (mem_string "Soort" av) eqn:HS; [|reflexivity].
      apply filter_all. intros r' Hr'.
      destruct (Hout r' Hr') as [r [Hr ->]].
      assert (HS' : has_column "Soort" df = true) by (apply available_sub, HS).
      unfold av. rewrite is_vote_project by exact HS'.
      unfold kept_rows in Hr. rewrite HS' in Hr.
      apply filter_In in Hr. tauto. }
    rewrite Hkept, map_fixed.
    + apply dedup_from_idempotent.
    + intros r' Hr'. destruct (Hout r' Hr') as [r [_ ->]].
      apply project_row_project.
Qed.



(** ** Frames built from records *)

Lemma dedup_from_dedup_from {A : Type}
      (eq_dec : forall a b : A, {a = b} + {a <> b}) (l : list A) :
  forall seen seen',
    (forall x, In x seen' -> In x seen) ->
    dedup_from eq_dec seen (dedup_from eq_dec seen' l) = dedup_from eq_dec seen l.
Proof.
  induction l as [|x l IH]; intros seen seen' Hsub; simpl; [reflexivity|].
  destruct (in_dec eq_dec x seen') as [Hx'|Hx'].
  - destruct (in_dec eq_dec x seen) as [Hx|Hx]; [|exfalso; auto].
    apply IH, Hsub.
  - simpl. destruct (in_dec eq_dec x seen) as [Hx|Hx].
    + apply IH. intros y [->|Hy]; auto.
    + f_equal. apply IH. intros y [->|Hy]; simpl; auto.
Qed.

Lemma dedup_from_concat_dedup {A : Type}
      (eq_dec : forall a b : A, {a = b} + {a <> b}) (ls : list (list A)) :
  forall seen,
    dedup_from eq_dec seen (concat (map (dedup_from eq_dec []) ls))
    = dedup_from eq_dec seen (concat ls).
Proof.
  induction ls as [|l ls IH]; intros seen; simpl; [reflexivity|].
  rewrite !dedup_from_app. f_equal.
  - apply dedup_from_dedup_from. intros x [].
  - rewrite IH. apply dedup_from_seen_ext. intros x.
    rewrite !in_app_iff, dedup_from_In. simpl. tauto.
Qed.

Lemma lookup_field_absent (k : string) (r : record) :
  ~ In k (map fst r) -> lookup_field k r = CNA.
Proof.
  induction r as [|[k' v] r IH]; simpl; intros H; [reflexivity|].
  destruct (String.eqb k k') eqn:E.
  - apply String.eqb_eq in E. subst. exfalso. auto.
  - apply IH. auto.
Qed.

Lemma column_index_absent (c : string) (cs : list string) :
  mem_string c cs = false -> column_index c cs = None.
Proof.
  induction cs as [|c' cs IH]; simpl; intros H; [reflexivity|].
  destruct (String.eqb c c'); [discriminate|].
  simpl in H. rewrite (IH H). reflexivity.
Qed.

(** A row built from a record, read back under any column label. *)
Lemma get_cell_of_record (cs : list string) (r : record) (c : string) :
  (forall k, In k (map fst r) -> In k cs) ->
  get_cell cs (map (fun c' => lookup_field c' r) cs) c = lookup_field c r.
Proof.
  intros Hkeys. unfold get_cell. destruct (mem_string c cs) eqn:E.
  - pose proof (column_index_map c cs E (fun c' => lookup_field c' r)) as Hi.
    destruct (column_index c cs); [exact Hi | contradiction].
  - rewrite (column_index_absent c cs E). symmetry.
    apply lookup_field_absent. intros Hin. apply Hkeys, mem_string_In in Hin.
    congruence.
Qed.

Lemma record_keys_In (recs : list record) (r : record) (k : string) :
  In r recs -> In k (map fst r) -> In k (record_keys recs).
Proof.
  intros Hr Hk. unfold record_keys, field_names.
  apply dedup_from_In. split; [|intros []].
  apply in_concat. exists (map fst r). split; [apply in_map, Hr | exact Hk].
Qed.

(** Concatenating the frames of several pages gives the frame of the
    concatenated pages. *)
Lemma pd_concat_DataFrame_of (pages : list (list record)) :
  pd_concat (map DataFrame_of pages) = DataFrame_of (concat pages).
Proof.
  unfold pd_concat.
  assert (Hcols : dedup_from string_dec []
                    (concat (map columns (map DataFrame_of pages)))
                  = record_keys (concat pages)).
  { unfold record_keys.
    replace (concat (map columns (map DataFrame_of pages)))
      with (concat (map (dedup_from string_dec []) (map field_names pages))).
    - rewrite dedup_from_concat_dedup. f_equal.
      unfold field_names.
      induction pages as [|p ps IH]; simpl; [reflexivity|].
      rewrite map_app, concat_app, IH. reflexivity.
    - rewrite !map_map. reflexivity. }
  rewrite Hcols. unfold DataFrame_of. cbv zeta. f_equal.
  rewrite concat_map, map_map. f_equal.
  apply map_ext. intros p. cbn [columns rows].
  rewrite map_map. apply map_ext_in. intros r Hr.
  unfold project_row. apply map_ext. intros c.
  apply get_cell_of_record. intros k Hk.
  exact (record_keys_In p r k Hr Hk).
Qed.

Lemma len_DataFrame_of (recs : list record) :
  len (DataFrame_of recs) = length recs.
Proof. unfold len, DataFrame_of. cbn [rows]. apply length_map. Qed.

(** ** The offset-based loop *)

Lemma requests_S (endpoint : string) (filter_query : option string)
      (skip : Z) (k : nat) :
  requests endpoint filter_query skip (S k)
  = Paginated.url_of endpoint filter_query skip
    :: requests endpoint filter_query (skip + 250) k.
Proof.
  unfold requests. rewrite <- cons_seq. cbn [map]. f_equal.
  - f_equal. lia.
  - rewrite <- seq_shift, map_map. apply map_ext. intros i. f_equal. lia.
Qed.

Lemma is_full_not_short {A : Type} (r : response A) :
  is_short r = true -> is_full r = false.
Proof.
  destruct r as [|[v|] l]; simpl; try discriminate.
  intros H. apply Z.ltb_lt in H. apply Z.leb_gt. exact H.
Qed.

(** The loop on a run of full pages: each is requested at the next offset
    and appended, and the loop goes on with the responses that follow. *)
Lemma paginated_loop_full (endpoint : string) (filter_query : option string)
      (rs : list (response record)) :
  Forall (fun r => is_full r = true) rs ->
  forall pending st sent,
    Paginated.loop endpoint filter_query (rs ++ pending) st sent
    = Paginated.loop endpoint filter_query pending
        (Paginated.mkState
           (Paginated.all_data st ++ map DataFrame_of (map page_of rs))
           (Paginated.skip st + 250 * Z.of_nat (length rs))
           (Paginated.batch_num st + Z.of_nat (length rs))
           (Paginated.total_records st
            + Z.of_nat (length (concat (map page_of rs)))))
        (sent ++ requests endpoint filter_query (Paginated.skip st) (length rs)).
Proof.
  induction 1 as [|r rs Hr _ IH]; intros pending st sent.
  - destruct st. unfold requests. simpl. rewrite !app_nil_r, !Z.add_0_r.
    reflexivity.
  - destruct r as [|[v|] l]; try discriminate. simpl in Hr.
    apply Z.leb_le in Hr.
    cbn [app Paginated.loop].
    assert (Hlen : (length v =? 0) = false) by (apply Nat.eqb_neq; lia).
    rewrite Hlen, len_DataFrame_of.
    assert (Hlt : (Z.of_nat (length v) <? BATCH_SIZE)%Z = false).
    { apply Z.ltb_ge. exact Hr. }
    rewrite Hlt, IH. cbn [Paginated.all_data Paginated.skip
                          Paginated.batch_num Paginated.total_records].
    cbn [map page_of concat length]. rewrite requests_S.
    rewrite <- !app_assoc. cbn [app]. unfold BATCH_SIZE.
    f_equal. f_equal; [lia | lia |].
    rewrite length_app. lia.
Qed.

Lemma requests_snoc (endpoint : string) (filter_query : option string)
      (skip : Z) (k : nat) :
  requests endpoint filter_query skip (S k)
  = requests endpoint filter_query skip k
    ++ [Paginated.url_of endpoint filter_query (skip + 250 * Z.of_nat k)].
Proof.
  unfold requests. rewrite seq_S, map_app. reflexivity.
Qed.

(** The result of [fetch_paginated_data] is in every case the
    concatenation of the frames gathered by the loop. *)
Lemma fetch_paginated_data_loop (endpoint : string) (filter_query : option string)
      (pending : list (response record)) (sent : list string) :
  Paginated.fetch_paginated_data endpoint filter_query pending sent
  = let r := Paginated.loop endpoint filter_query pending Paginated.initial sent in
    if finished r
    then Some (pd_concat (Paginated.all_data (final r)), unread r, urls_sent r)
    else None.
Proof.
  unfold Paginated.fetch_paginated_data. cbv zeta.
  destruct (finished _); [|reflexivity].
  destruct (Paginated.all_data _); reflexivity.
Qed.

(** A run of [fetch_paginated_data]: full pages, then a response that is not
    a full page.  The loop stops at that response; the result is the frame of
    all the records received. *)
Lemma fetch_paginated_data_run (endpoint : string) (filter_query : option string)
      (rs : list (response record)) (last : response record)
      (pending : list (response record)) (sent : list string) :
  Forall (fun r => is_full r = true) rs ->
  is_full last = false ->
  Paginated.fetch_paginated_data endpoint filter_query (rs ++ last :: pending) sent
  = Some (DataFrame_of (concat (map page_of (rs ++ [last]))),
          pending,
          sent ++ requests endpoint filter_query 0 (S (length rs))).
Proof.
  intros Hrs Hlast. rewrite fetch_paginated_data_loop.
  rewrite (paginated_loop_full endpoint filter_query rs Hrs).
  rewrite requests_snoc, app_assoc, map_app, concat_app.
  cbn [Paginated.initial Paginated.all_data Paginated.skip
       Paginated.batch_num Paginated.total_records app map concat].
  rewrite app_nil_r.
  set (frames := map DataFrame_of (map page_of rs)).
  assert (Hframes : pd_concat frames = DataFrame_of (concat (map page_of rs)))
    by apply pd_concat_DataFrame_of.
  cbv zeta.
  destruct last as [|[v|] l];
    cbn [Paginated.loop page_of Paginated.all_data Paginated.skip
         finished final unread urls_sent].
  - rewrite Hframes, app_nil_r. reflexivity.
  - destruct (length v =? 0) eqn:Hlen.
    + apply Nat.eqb_eq, length_zero_iff_nil in Hlen. subst v.
      cbn [Paginated.all_data finished final unread urls_sent].
      rewrite Hframes, app_nil_r. reflexivity.
    + simpl in Hlast. apply Z.leb_gt in Hlast.
      rewrite len_DataFrame_of.
      assert (Hlt : (Z.of_nat (length v) <? BATCH_SIZE)%Z = true)
        by (apply Z.ltb_lt; exact Hlast).
      rewrite Hlt. cbn [Paginated.all_data finished final unread urls_sent].
      unfold frames.
      change [DataFrame_of v] with (map DataFrame_of [v]).
      rewrite <- map_app.
      rewrite pd_concat_DataFrame_of, concat_app. cbn [concat].
      rewrite app_nil_r. reflexivity.
  - rewrite Hframes, app_nil_r. reflexivity.
Qed.

(** As long as only full pages arrive the loop keeps requesting. *)
Lemma fetch_paginated_data_unfinished (endpoint : string)
      (filter_query : option string) (rs : list (response record))
      (sent : list string) :
  Forall (fun r => is_full r = true) rs ->
  Paginated.fetch_paginated_data endpoint filter_query rs sent = None.
Proof.
  intros Hrs. rewrite fetch_paginated_data_loop. cbv zeta.
  pose proof (paginated_loop_full endpoint filter_query rs Hrs []
                                  Paginated.initial sent) as H.
  rewrite app_nil_r in H. rewrite H. reflexivity.
Qed.

(** C1: whatever the responses, as long as full pages arrive
    [fetch_paginated_data] requests the next page of size 250, at offsets
    0, 250, 500, ...; at the first page with fewer than 250 records (or none)
    it stops, sending no further request, and returns the concatenation of
    all the pages fetched. *)
Theorem fetch_paginated_data_pages (endpoint : string)
        (filter_query : option string)
        (rs : list (response record)) (last : response record)
        (pending : list (response record)) (sent : list string) :
  Forall (fun r => is_full r = true) rs ->
  is_short last = true ->
  exists df,
    Paginated.fetch_paginated_data endpoint filter_query
                                   (rs ++ last :: pending) sent
    = Some (df, pending,
            sent ++ map (fun i => Paginated.url_of endpoint filter_query
                                                   (0 + 250 * Z.of_nat i)%Z)
                        (seq 0 (S (length rs))))
    /\ df = DataFrame_of (concat (map page_of (rs ++ [last])))
    /\ len df = list_sum (map (fun r => length (page_of r)) (rs ++ [last])).
Proof.
  intros Hrs Hlast. eexists. split; [|split; [reflexivity|]].
  - apply fetch_paginated_data_run; [exact Hrs|].
    apply is_full_not_short, Hlast.
  - rewrite len_DataFrame_of, length_concat, map_map. reflexivity.
Qed.

(** Three pages of 250, 250 and 90 records: 590 records are returned after
    three requests, and the response after the short page is not asked for. *)
Lemma fetch_paginated_data_pages_witness :
  let vote := [("Id", CInt 7); ("Soort", CStr "Voor")]%string in
  let page n := Json (Some (repeat vote n)) None in
  Forall (fun r => is_full r = true) [page 250; page 250]
  /\ is_short (page 90) = true
  /\ exists df,
      Paginated.fetch_paginated_data
        "Stemming" None [page 250; page 250; page 90; page 250] []
      = Some (df, [page 250],
              ["https://gegevensmagazijn.tweedekamer.nl/OData/v4/2.0/Stemming?$top=250&$skip=0";
               "https://gegevensmagazijn.tweedekamer.nl/OData/v4/2.0/Stemming?$top=250&$skip=250";
               "https://gegevensmagazijn.tweedekamer.nl/OData/v4/2.0/Stemming?$top=250&$skip=500"]%string)
      /\ len df = 590.
Proof.
  intros vote page.
  assert (Hfull : Forall (fun r => is_full r = true) [page 250; page 250])
    by (repeat constructor).
  assert (Hshort : is_short (page 90) = true) by reflexivity.
  split; [exact Hfull|]. split; [exact Hshort|].
  destruct (fetch_paginated_data_pages "Stemming" None [page 250; page 250]
              (page 90) [page 250] [] Hfull Hshort) as [df [Hrun [_ Hlen]]].
  exists df. split; [exact Hrun | rewrite Hlen; vm_compute; reflexivity].
Defined.

(** ** The cursor-based loop *)

Section CoauthoringLoop.

Context {item : Type}.
Variables date_from date_to : string.

Local Abbreviation loop := (Coauthoring.loop (item := item) date_from date_to).
Local Abbreviation step := (advance (item := item) date_from date_to).

(** One iteration on a full page. *)
Lemma coauthoring_loop_full_page (r : response item)
      (pending : list (response item)) (st : Coauthoring.state item)
      (sent : list string) :
  is_full r = true ->
  loop (r :: pending) st sent = loop pending (step st r) (sent ++ [Coauthoring.url st]).
Proof.
  destruct r as [|[v|] l]; try discriminate. simpl is_full. intros Hr.
  apply Z.leb_le in Hr. cbn [Coauthoring.loop].
  assert (Hlt : (Z.of_nat (length v) <? 250)%Z = false) by (apply Z.ltb_ge; exact Hr).
  rewrite Hlt. unfold advance. cbn [link_of page_of].
  destruct (truthy l); reflexivity.
Qed.

(** One iteration on a response that is not a full page: the loop ends. *)
Lemma coauthoring_loop_stop (r : response item)
      (pending : list (response item)) (st : Coauthoring.state item)
      (sent : list string) :
  is_full r = false ->
  loop (r :: pending) st sent
  = mkRun (Coauthoring.mkState (Coauthoring.url st)
                               (Coauthoring.all_items st ++ page_of r)
                               (Coauthoring.seen st + Z.of_nat (length (page_of r)))
                               (Coauthoring.batch_num st) (Coauthoring.skip st))
          pending (sent ++ [Coauthoring.url st]) true.
Proof.
  destruct r as [|[v|] l]; cbn [Coauthoring.loop is_full page_of length].
  - intros _. rewrite app_nil_r, Z.add_0_r. destruct st; reflexivity.
  - intros Hr. apply Z.leb_gt in Hr.
    assert (Hlt : (Z.of_nat (length v) <? 250)%Z = true) by (apply Z.ltb_lt; exact Hr).
    rewrite Hlt. reflexivity.
  - intros _. reflexivity.
Qed.

(** The loop on a run of full pages. *)
Lemma coauthoring_loop_full (rs : list (response item)) :
  Forall (fun r => is_full r = true) rs ->
  forall pending st sent,
    loop (rs ++ pending) st sent
    = loop pending (fold_left step rs st) (sent ++ visited date_from date_to st rs).
Proof.
  induction 1 as [|r rs Hr _ IH]; intros pending st sent.
  - simpl. rewrite app_nil_r. reflexivity.
  - cbn [app fold_left visited].
    rewrite (coauthoring_loop_full_page r _ st sent Hr), IH.
    rewrite <- app_assoc. reflexivity.
Qed.

(** Every iteration requests the URL held in the loop variable [url]. *)
Lemma coauthoring_loop_requests (pending : list (response item)) :
  forall st sent,
  exists rest, urls_sent (loop pending st sent) = sent ++ rest
               /\ (pending <> [] ->
                   exists rest', rest = Coauthoring.url st :: rest').
Proof.
  induction pending as [|r pending IH]; intros st sent.
  - exists []. simpl. rewrite app_nil_r. split; [reflexivity|]. congruence.
  - destruct (is_full r) eqn:Hr.
    + rewrite (coauthoring_loop_full_page r pending st sent Hr).
      destruct (IH (step st r) (sent ++ [Coauthoring.url st])) as [rest [Hrest _]].
      exists (Coauthoring.url st :: rest). rewrite Hrest, <- app_assoc.
      split; [reflexivity|]. intros _. eauto.
    + rewrite (coauthoring_loop_stop r pending st sent Hr).
      exists [Coauthoring.url st]. split; [reflexivity|]. intros _. eauto.
Qed.

Lemma fold_left_step_all_items (rs : list (response item)) :
  forall st,
    Coauthoring.all_items (fold_left step rs st)
    = Coauthoring.all_items st ++ concat (map page_of rs).
Proof.
  induction rs as [|r rs IH]; intros st; simpl.
  - rewrite app_nil_r. reflexivity.
  - rewrite IH, app_assoc. f_equal. unfold advance.
    destruct (truthy (link_of r)); reflexivity.
Qed.

Lemma fold_left_step_skip (rs : list (response item)) :
  forall st,
    Coauthoring.skip (fold_left step rs st)
    = (Coauthoring.skip st + 250 * Z.of_nat (fallback_steps rs))%Z.
Proof.
  induction rs as [|r rs IH]; intros st.
  - simpl. lia.
  - cbn [fold_left]. rewrite IH. unfold fallback_steps, advance.
    cbn [filter]. destruct (truthy (link_of r)); cbn [negb length Coauthoring.skip]; lia.
Qed.

Lemma visited_length (rs : list (response item)) :
  forall st, length (visited date_from date_to st rs) = length rs.
Proof.
  induction rs as [|r rs IH]; intros st; simpl; [reflexivity|].
  rewrite IH. reflexivity.
Qed.

End CoauthoringLoop.

Lemma fallback_url_parts (date_from date_to : string) (skip : Z) :
  Coauthoring.fallback_url date_from date_to skip
  = BASE_URL +s+ "/Document?"
    +s+ String.concat "&"
          (map Coauthoring.query_part (Coauthoring.params date_from date_to)
           ++ ["$skip=" +s+ str skip]).
Proof. reflexivity. Qed.

Lemma coauthoring_next_request {item : Type} (date_from date_to : string)
      (r r' : response item) (pending : list (response item))
      (st : Coauthoring.state item) (sent : list string) :
  is_full r = true ->
  exists rest,
    urls_sent (Coauthoring.loop date_from date_to (r :: r' :: pending) st sent)
    = sent ++ Coauthoring.url st
           :: Coauthoring.url (advance date_from date_to st r) :: rest.
Proof.
  intros Hr. rewrite (coauthoring_loop_full_page date_from date_to r _ st sent Hr).
  destruct (coauthoring_loop_requests date_from date_to (r' :: pending)
              (advance date_from date_to st r) (sent ++ [Coauthoring.url st]))
    as [rest [Hrest Hhead]].
  destruct Hhead as [rest' ->]; [discriminate|].
  exists rest'. rewrite Hrest, <- app_assoc. reflexivity.
Qed.

(** A full page without next link is followed by the rebuilt URL. *)
Lemma coauthoring_fallback_step {item : Type} (date_from date_to : string)
      (r r' : response item) (pending : list (response item))
      (st : Coauthoring.state item) (sent : list string) :
  is_full r = true ->
  truthy (link_of r) = false ->
  exists rest,
    urls_sent (Coauthoring.loop date_from date_to (r :: r' :: pending) st sent)
    = sent
      ++ Coauthoring.url st
      :: (BASE_URL +s+ "/Document?"
          +s+ String.concat "&"
                (map Coauthoring.query_part (Coauthoring.params date_from date_to)
                 ++ ["$skip=" +s+ str (Coauthoring.skip st + 250)]))
      :: rest.
Proof.
  intros Hr Hl.
  destruct (coauthoring_next_request date_from date_to r r' pending st sent Hr)
    as [rest Hrest].
  exists rest. rewrite Hrest. unfold advance. rewrite Hl.
  cbn [Coauthoring.url]. rewrite fallback_url_parts. reflexivity.
Qed.

(** C4: when a response holds a full page and no next link, the following
    request is the offset-based one: the initial query parameters ($filter,
    $expand, $select, $top) followed by a [$skip] that is 250 more than the
    [skip] of the loop so far. *)
Theorem coauthoring_fallback_request {item : Type} (date_from date_to : string)
        (r r' : response item) (pending : list (response item))
        (st : Coauthoring.state item) (sent : list string) :
  is_full r = true ->
  truthy (link_of r) = false ->
  exists rest,
    urls_sent (Coauthoring.loop date_from date_to (r :: r' :: pending) st sent)
    = sent
      ++ Coauthoring.url st
      :: (BASE_URL +s+ "/Document?"
          +s+ String.concat "&"
                (map Coauthoring.query_part (Coauthoring.params date_from date_to)
                 ++ ["$skip=" +s+ str (Coauthoring.skip st + 250)]))
      :: rest.
Proof.
  intros Hr Hl. apply coauthoring_fallback_step; assumption.
Qed.

Lemma coauthoring_fallback_request_witness :
  let full := Json (Some (repeat "doc"%string 250)) None in
  let short := Json (Some ["doc"%string]) None in
  let first := Coauthoring.initial_url "2022-11-22" "2023-11-21" in
  is_full full = true
  /\ truthy (link_of full) = false
  /\ exists rest,
      urls_sent (Coauthoring.loop "2022-11-22" "2023-11-21" [full; short]
                   (Coauthoring.initial "2022-11-22" "2023-11-21") [])
      = first :: (first +s+ "&$skip=250") :: rest.
Proof.
  intros full short first. split; [reflexivity|]. split; [reflexivity|].
  destruct (coauthoring_fallback_request "2022-11-22" "2023-11-21" full short []
              (Coauthoring.initial "2022-11-22" "2023-11-21") []
              eq_refl eq_refl) as [rest Hrest].
  exists rest. rewrite Hrest. reflexivity.
Defined.

(** C8, as stated, fails: a page with fewer than 250 records ends the loop
    even when it carries a next link; the link is never requested and the
    response that would have answered it stays unread. *)
Lemma coauthoring_short_page_link_ignored :
  let linked := Json (Some ["doc-1"; "doc-2"]%string)
                     (Some "https://gegevensmagazijn.tweedekamer.nl/next"%string) in
  let more := Json (Some ["doc-3"%string]) None in
  truthy (link_of linked) = true
  /\ Coauthoring.fetch_coauthoring_data "2022-11-22" "2023-11-21" [linked; more] []
     = Some (["doc-1"; "doc-2"]%string, [more],
             [Coauthoring.initial_url "2022-11-22" "2023-11-21"]).
Proof.
  split; reflexivity.
Qed.

(** C8 (amended): when a response holds a full page and a non-empty next
    link, the following request goes to that link and [skip] stays as it is;
    the offset-based continuation is taken only without such a link.  A
    response with fewer than 250 records ends the loop, whether or not it
    carries a next link: its records are appended, no further request is
    sent and the responses that follow stay unread. *)
Theorem coauthoring_next_link_followed {item : Type} (date_from date_to : string)
        (r r' : response item) (pending : list (response item))
        (st : Coauthoring.state item) (sent : list string)
        (payload_value : option (list item)) (next_link : option string) :
  (is_full r = true ->
   truthy (link_of r) = true ->
   exists st' rest,
     Coauthoring.loop date_from date_to (r :: r' :: pending) st sent
     = Coauthoring.loop date_from date_to (r' :: pending) st'
                        (sent ++ [Coauthoring.url st])
     /\ Coauthoring.url st' = text_of (link_of r)
     /\ Coauthoring.skip st' = Coauthoring.skip st
     /\ urls_sent (Coauthoring.loop date_from date_to (r :: r' :: pending) st sent)
        = sent ++ Coauthoring.url st :: text_of (link_of r) :: rest)
  /\ ((Z.of_nat (length (page_of (Json payload_value next_link))) < 250)%Z ->
      Coauthoring.loop date_from date_to
                       (Json payload_value next_link :: pending) st sent
      = mkRun (Coauthoring.mkState
                 (Coauthoring.url st)
                 (Coauthoring.all_items st ++ page_of (Json payload_value next_link))
                 (Coauthoring.seen st
                  + Z.of_nat (length (page_of (Json payload_value next_link))))
                 (Coauthoring.batch_num st) (Coauthoring.skip st))
              pending (sent ++ [Coauthoring.url st]) true).
Proof.
  split.
  - intros Hr Hl.
    destruct (coauthoring_next_request date_from date_to r r' pending st sent Hr)
      as [rest Hrest].
    exists (advance date_from date_to st r), rest.
    split; [apply coauthoring_loop_full_page, Hr|].
    unfold advance in *. rewrite Hl in *. auto.
  - intros Hshort. apply coauthoring_loop_stop.
    destruct payload_value as [v|]; [|reflexivity].
    simpl in *. apply Z.leb_gt. exact Hshort.
Qed.

Lemma coauthoring_next_link_followed_witness :
  let linked := Json (Some (repeat "doc"%string 250))
                     (Some "https://gegevensmagazijn.tweedekamer.nl/next"%string) in
  let short := Json (Some ["doc"%string]) None in
  let first := Coauthoring.initial_url "2022-11-22" "2023-11-21" in
  (is_full linked = true
   /\ truthy (link_of linked) = true
   /\ exists rest,
       urls_sent (Coauthoring.loop "2022-11-22" "2023-11-21" [linked; short]
                    (Coauthoring.initial "2022-11-22" "2023-11-21") [])
       = first :: "https://gegevensmagazijn.tweedekamer.nl/next"%string :: rest)
  /\ ((Z.of_nat (length ["doc-1"; "doc-2"]%string) < 250)%Z
      /\ Coauthoring.loop "2022-11-22" "2023-11-21"
            [Json (Some ["doc-1"; "doc-2"]%string)
                  (Some "https://gegevensmagazijn.tweedekamer.nl/next"%string);
             short]
            (Coauthoring.initial "2022-11-22" "2023-11-21") []
         = mkRun (Coauthoring.mkState first ["doc-1"; "doc-2"]%string 2 1 0)
                 [short] [first] true).
Proof.
  intros linked short first. split.
  - split; [reflexivity|]. split; [reflexivity|].
    destruct (proj1 (coauthoring_next_link_followed "2022-11-22" "2023-11-21"
                       linked short []
                       (Coauthoring.initial "2022-11-22" "2023-11-21") []
                       None None)
                    eq_refl eq_refl) as [st' [rest [_ [_ [_ Hrest]]]]].
    exists rest. exact Hrest.
  - split; [reflexivity|].
    exact (proj2 (coauthoring_next_link_followed "2022-11-22" "2023-11-21"
                    short short [short]
                    (Coauthoring.initial "2022-11-22" "2023-11-21") []
                    (Some ["doc-1"; "doc-2"]%string)
                    (Some "https://gegevensmagazijn.tweedekamer.nl/next"%string))
                 eq_refl).
Defined.

Lemma fallback_steps_linked {A : Type} (rs : list (response A)) :
  Forall (fun r => truthy (link_of r) = true) rs -> fallback_steps rs = 0.
Proof.
  unfold fallback_steps. induction 1 as [|r rs Hr _ IH]; [reflexivity|].
  cbn [filter]. rewrite Hr. exact IH.
Qed.

(** C10: after any full pages, [skip] is 250 times the number of fallback
    steps among them; a step that follows a next link leaves [skip] as it
    is.  So when all pages so far were continued by next links, the first
    fallback request carries [$skip=250], however many pages came before. *)
Theorem coauthoring_skip_counts_fallbacks {item : Type} (date_from date_to : string)
        (rs : list (response item)) :
  Forall (fun r => is_full r = true) rs ->
  let st := fold_left (advance date_from date_to) rs
                      (Coauthoring.initial date_from date_to) in
  (forall pending sent,
      Coauthoring.loop date_from date_to (rs ++ pending)
                       (Coauthoring.initial date_from date_to) sent
      = Coauthoring.loop date_from date_to pending st
          (sent ++ visited date_from date_to (Coauthoring.initial date_from date_to) rs))
  /\ Coauthoring.skip st = (250 * Z.of_nat (fallback_steps rs))%Z
  /\ (forall r, truthy (link_of r) = true ->
                Coauthoring.skip (advance date_from date_to st r) = Coauthoring.skip st)
  /\ (Forall (fun r => truthy (link_of r) = true) rs ->
      forall r r' pending sent,
        is_full r = true -> truthy (link_of r) = false ->
        exists before rest,
          length before = S (length rs)
          /\ urls_sent (Coauthoring.loop date_from date_to (rs ++ r :: r' :: pending)
                          (Coauthoring.initial date_from date_to) sent)
             = sent ++ before
               ++ (BASE_URL +s+ "/Document?"
                   +s+ String.concat "&"
                         (map Coauthoring.query_part
                              (Coauthoring.params date_from date_to)
                          ++ ["$skip=250"%string]))
               :: rest).
Proof.
  intros Hrs st.
  assert (Hskip : Coauthoring.skip st = (250 * Z.of_nat (fallback_steps rs))%Z).
  { unfold st. rewrite fold_left_step_skip. reflexivity. }
  split; [intros; apply coauthoring_loop_full, Hrs|].
  split; [exact Hskip|]. split.
  - intros r Hl. unfold advance. rewrite Hl. reflexivity.
  - intros Hlinked r r' pending sent Hr Hl.
    rewrite (coauthoring_loop_full date_from date_to rs Hrs). fold st.
    destruct (coauthoring_fallback_step date_from date_to r r' pending st
                (sent ++ visited date_from date_to
                                 (Coauthoring.initial date_from date_to) rs)
                Hr Hl) as [rest Hrest].
    exists (visited date_from date_to (Coauthoring.initial date_from date_to) rs
            ++ [Coauthoring.url st]), rest.
    split.
    + rewrite length_app, visited_length. simpl. lia.
    + rewrite Hrest, Hskip, (fallback_steps_linked rs Hlinked).
      rewrite <- !app_assoc. reflexivity.
Qed.

Lemma coauthoring_skip_counts_fallbacks_witness :
  let page l := Json (Some (repeat "doc"%string 250)) l in
  let rs := [page (Some "https://gegevensmagazijn.tweedekamer.nl/p2"%string);
             page (Some "https://gegevensmagazijn.tweedekamer.nl/p3"%string)] in
  let first := Coauthoring.initial_url "2022-11-22" "2023-11-21" in
  Forall (fun r => is_full r = true) rs
  /\ Coauthoring.skip
       (fold_left (advance "2022-11-22" "2023-11-21") (rs ++ [page None; page None])
                  (Coauthoring.initial "2022-11-22" "2023-11-21")) = 500%Z
  /\ exists before rest,
      length before = 3
      /\ urls_sent (Coauthoring.loop "2022-11-22" "2023-11-21"
                      (rs ++ [page None; Raised])
                      (Coauthoring.initial "2022-11-22" "2023-11-21") [])
         = before ++ (first +s+ "&$skip=250") :: rest.
Proof.
  intros page rs first.
  assert (Hrs : Forall (fun r => is_full r = true) rs) by (repeat constructor).
  assert (Hall : Forall (fun r => is_full r = true) (rs ++ [page None; page None]))
    by (repeat constructor).
  split; [exact Hrs|]. split.
  - destruct (coauthoring_skip_counts_fallbacks "2022-11-22" "2023-11-21" _ Hall)
      as [_ [Hskip _]].
    rewrite Hskip. reflexivity.
  - destruct (coauthoring_skip_counts_fallbacks "2022-11-22" "2023-11-21" rs Hrs)
      as [_ [_ [_ Hfirst]]].
    assert (Hlinked : Forall (fun r => truthy (link_of r) = true) rs)
      by (repeat constructor).
    destruct (Hfirst Hlinked (page None) Raised [] [] eq_refl eq_refl)
      as [before [rest [Hlen Hurls]]].
    exists before, rest. split; [exact Hlen | exact Hurls].
Defined.

(** C7: when a page request raises, after any number of full pages, both
    loops end at that request: one request was sent per response consumed
    (so none was repeated), the responses that follow stay unread, and the
    function returns the records of the pages before the failure, which
    is the empty result when the first request fails. *)
Theorem request_exception_ends_loop
        (endpoint : string) (filter_query : option string)
        (rs : list (response record)) (pending : list (response record))
        {item : Type} (date_from date_to : string)
        (ds : list (response item)) (unasked : list (response item))
        (sent : list string) :
  Forall (fun r => is_full r = true) rs ->
  Forall (fun r => is_full r = true) ds ->
  Paginated.fetch_paginated_data endpoint filter_query (rs ++ Raised :: pending) sent
  = Some (DataFrame_of (concat (map page_of rs)), pending,
          sent ++ requests endpoint filter_query 0 (S (length rs)))
  /\ (exists asked,
         length asked = S (length ds)
         /\ Coauthoring.fetch_coauthoring_data date_from date_to
                                               (ds ++ Raised :: unasked) sent
            = Some (concat (map page_of ds), unasked, sent ++ asked)).
Proof.
  intros Hrs Hds. split.
  - rewrite (fetch_paginated_data_run endpoint filter_query rs Raised pending sent
                                      Hrs eq_refl).
    rewrite map_app, concat_app. cbn [map page_of concat].
    rewrite !app_nil_r. reflexivity.
  - set (init := Coauthoring.initial (item := item) date_from date_to).
    exists (visited date_from date_to init ds
            ++ [Coauthoring.url (fold_left (advance date_from date_to) ds init)]).
    split.
    + rewrite length_app, visited_length. simpl. lia.
    + unfold Coauthoring.fetch_coauthoring_data. cbv zeta. fold init.
      rewrite (coauthoring_loop_full date_from date_to ds Hds).
      cbn [Coauthoring.loop finished final unread urls_sent].
      rewrite fold_left_step_all_items, app_assoc. reflexivity.
Qed.

Lemma request_exception_ends_loop_witness :
  let vote := [("Id", CInt 7); ("Soort", CStr "Voor")]%string in
  let page := Json (Some (repeat vote 250)) None in
  let docs := Json (Some (repeat "doc"%string 250)) None in
  Forall (fun r => is_full r = true) [page]
  /\ Forall (fun r => is_full r = true) [docs]
  /\ Paginated.fetch_paginated_data "Stemming" None [page; Raised; page] []
     = Some (DataFrame_of (repeat vote 250), [page],
             requests "Stemming" None 0 2)
  /\ Paginated.fetch_paginated_data "Stemming" None [Raised; page] []
     = Some (empty_frame, [page], requests "Stemming" None 0 1)
  /\ exists asked,
      length asked = 2
      /\ Coauthoring.fetch_coauthoring_data "2022-11-22" "2023-11-21"
                                            [docs; Raised; docs] []
         = Some (repeat "doc"%string 250, [docs], asked).
Proof.
  intros vote page docs.
  assert (Hp : Forall (fun r => is_full r = true) [page]) by (repeat constructor).
  assert (Hd : Forall (fun r => is_full r = true) [docs]) by (repeat constructor).
  split; [exact Hp|]. split; [exact Hd|].
  destruct (request_exception_ends_loop "Stemming" None [page] [page]
              "2022-11-22" "2023-11-21" [docs] [docs] [] Hp Hd)
    as [Hvotes [asked [Hlen Hdocs]]].
  destruct (request_exception_ends_loop "Stemming" None [] [page]
              "2022-11-22" "2023-11-21" [docs] [docs] [] (Forall_nil _) Hd)
    as [Hnone _].
  split; [|split].
  - exact Hvotes.
  - exact Hnone.
  - exists asked. split; [exact Hlen | exact Hdocs].
Defined.

(** ** Requests of the offset-based loop, whatever the responses *)

Lemma paginated_loop_requests (endpoint : string) (filter_query : option string)
      (pending : list (response record)) :
  forall st sent,
  exists k,
    urls_sent (Paginated.loop endpoint filter_query pending st sent)
    = sent ++ requests endpoint filter_query (Paginated.skip st) k.
Proof.
  induction pending as [|r pending IH]; intros st sent.
  - exists 0. simpl. rewrite app_nil_r. reflexivity.
  - assert (Hstop : sent ++ [Paginated.url_of endpoint filter_query (Paginated.skip st)]
                    = sent ++ requests endpoint filter_query (Paginated.skip st) 1).
    { unfold requests. simpl. rewrite Z.add_0_r. reflexivity. }
    cbn [Paginated.loop].
    destruct r as [|[v|] l]; try (exists 1; exact Hstop).
    destruct (length v =? 0); [exists 1; exact Hstop|].
    destruct (Z.of_nat (len (DataFrame_of v)) <? BATCH_SIZE)%Z;
      [exists 1; exact Hstop|].
    match goal with
    | |- context [Paginated.loop _ _ pending ?st' ?sent'] =>
        destruct (IH st' sent') as [k Hk]
    end.
    exists (S k). rewrite Hk, requests_S, <- app_assoc. reflexivity.
Qed.

Lemma fetch_paginated_data_requests (endpoint : string)
      (filter_query : option string) (pending : list (response record))
      (sent : list string) (df : DataFrame) (pending' : list (response record))
      (sent' : list string) :
  Paginated.fetch_paginated_data endpoint filter_query pending sent
  = Some (df, pending', sent') ->
  exists k, sent' = sent ++ requests endpoint filter_query 0 k.
Proof.
  rewrite fetch_paginated_data_loop. cbv zeta.
  destruct (paginated_loop_requests endpoint filter_query pending
              Paginated.initial sent) as [k Hk].
  destruct (finished _); [|discriminate].
  intros H. injection H as _ _ <-. exists k. exact Hk.
Qed.

(** ** The date-window fallback *)

Lemma nth_map_nth (f : cell -> cell) (r : row) :
  forall i,
    nth i (map_nth i f r) CNA = if i <? length r then f (nth i r CNA) else CNA.
Proof.
  induction r as [|x r IH]; intros [|i]; simpl; try reflexivity.
  rewrite IH. reflexivity.
Qed.

Lemma filter_map_swap {X Y : Type} (p : Y -> bool) (g : X -> Y) (l : list X) :
  filter p (map g l) = map g (filter (fun x => p (g x)) l).
Proof.
  induction l as [|x l IH]; simpl; [reflexivity|].
  destruct (p (g x)); simpl; rewrite IH; reflexivity.
Qed.

Lemma filter_none {X : Type} (p : X -> bool) (l : list X) :
  (forall x, In x l -> p x = false) -> filter p l = [].
Proof.
  induction l as [|x l IH]; simpl; intros H; [reflexivity|].
  rewrite (H x (or_introl eq_refl)). apply IH. auto.
Qed.

Lemma get_cell_absent (cols : list string) (r : row) (c : string) :
  mem_string c cols = false -> get_cell cols r c = CNA.
Proof.
  intros H. unfold get_cell. rewrite (column_index_absent c cols H). reflexivity.
Qed.

Lemma column_index_present (c : string) (cols : list string) :
  mem_string c cols = true -> exists i, column_index c cols = Some i.
Proof.
  intros H. pose proof (column_index_map c cols H (fun _ => CNA)) as Hi.
  destruct (column_index c cols) as [i|]; [eauto | contradiction].
Qed.

Section Fallback.

(** pandas' parser, of which only one fact is used: a missing value stays
    missing (NaT). *)
Variable to_datetime : cell -> option Z.
Hypothesis to_datetime_missing : to_datetime CNA = None.

(** After the timestamp column is converted, the comparison with the window
    bounds is the window test on the unconverted row. *)
Lemma between_converted (cols : list string) (i : nat) (lo hi : Z) (r : row) :
  column_index "GewijzigdOp" cols = Some i ->
  between cols "GewijzigdOp" lo hi (map_nth i (to_datetime_cell to_datetime) r)
  = within_window to_datetime lo hi cols r.
Proof.
  intros Hi. unfold between, within_window, get_cell. rewrite Hi, nth_map_nth.
  destruct (i <? length r) eqn:E.
  - unfold to_datetime_cell. destruct (to_datetime (nth i r CNA)); reflexivity.
  - apply Nat.ltb_ge in E. rewrite (nth_overflow r CNA E), to_datetime_missing.
    reflexivity.
Qed.

Lemma within_window_no_timestamp (lo hi : Z) (cols : list string) (r : row) :
  get_cell cols r "GewijzigdOp" = CNA ->
  within_window to_datetime lo hi cols r = false.
Proof.
  intros H. unfold within_window. rewrite H, to_datetime_missing. reflexivity.
Qed.

Lemma rows_assign_column_nil (c : string) (f : cell -> cell) (cols : list string) :
  rows (assign_column c f (mkDF cols [])) = [].
Proof.
  unfold assign_column. cbn [columns rows].
  destruct (column_index c cols); reflexivity.
Qed.

(** C3 (amended): when the date-filtered vote fetch returns zero rows,
    [main] fetches again without a filter, cleans the result, and keeps of
    the cleaned table exactly the rows whose GewijzigdOp is an instant from
    2022-11-22 00:00:00 to 2023-11-21 23:59:59 (UTC), both bounds included
    and the end bound taken to the second, with that column converted to
    instants.  No row of the result has an instant before the start or after
    the end bound; the instants of 2023-11-21 after 23:59:59.000 are left
    out. *)
Theorem main_fallback_window
        (pending : list (response record)) (sent : list string)
        (filtered : DataFrame) (pending1 : list (response record))
        (sent1 : list string)
        (all_data : DataFrame) (pending2 : list (response record))
        (sent2 : list string) :
  Paginated.fetch_paginated_data "Stemming" (Some pre_filter) pending sent
  = Some (filtered, pending1, sent1) ->
  len filtered = 0 ->
  Paginated.fetch_paginated_data "Stemming" None pending1 sent1
  = Some (all_data, pending2, sent2) ->
  let cleaned := process_voting_data all_data in
  exists pre_data,
    main_pre_data to_datetime pending sent = Some (pre_data, pending2, sent2)
    /\ (exists k, sent2 = sent1 ++ requests "Stemming" None 0 k)
    /\ rows pre_data
       = rows (assign_column "GewijzigdOp" (to_datetime_cell to_datetime)
                 (select_rows
                    (within_window to_datetime pre_start_dt pre_end_dt
                                   (columns cleaned))
                    cleaned))
    /\ (forall r, In r (rows pre_data) ->
          exists t, get_cell (columns pre_data) r "GewijzigdOp" = CTime t
                    /\ (Timestamp 2022 11 22 0 0 0 <= t)%Z
                    /\ (t <= Timestamp 2023 11 21 23 59 59)%Z).
Proof.
  intros H1 Hlen H2 cleaned.
  assert (Hrows : rows filtered = []) by (apply length_zero_iff_nil; exact Hlen).
  assert (Hempty : empty filtered = true) by (unfold empty; rewrite Hrows; reflexivity).
  pose proof (fetch_paginated_data_requests _ _ _ _ _ _ _ H2) as Hsent.
  unfold main_pre_data. rewrite H1, Hempty, H2.
  (* the branches that leave [pre_data] as it was *)
  assert (Hnone :
            (forall r, In r (rows cleaned) ->
                       get_cell (columns cleaned) r "GewijzigdOp" = CNA) ->
            exists pre_data,
              Some (filtered, pending2, sent2) = Some (pre_data, pending2, sent2)
              /\ (exists k, sent2 = sent1 ++ requests "Stemming" None 0 k)
              /\ rows pre_data
                 = rows (assign_column "GewijzigdOp" (to_datetime_cell to_datetime)
                           (select_rows
                              (within_window to_datetime pre_start_dt pre_end_dt
                                             (columns cleaned))
                              cleaned))
              /\ (forall r, In r (rows pre_data) ->
                    exists t, get_cell (columns pre_data) r "GewijzigdOp" = CTime t
                              /\ (Timestamp 2022 11 22 0 0 0 <= t)%Z
                              /\ (t <= Timestamp 2023 11 21 23 59 59)%Z)).
  { intros Hna. exists filtered. split; [reflexivity|]. split; [exact Hsent|].
    rewrite Hrows. split; [|intros r []].
    unfold select_rows. rewrite filter_none.
    - symmetry. apply rows_assign_column_nil.
    - intros r Hr. apply within_window_no_timestamp, Hna, Hr. }
  destruct (empty all_data) eqn:E; cbn [negb].
  { apply Hnone. intros r Hr. unfold cleaned in *.
    rewrite (process_voting_data_empty all_data E) in *.
    unfold empty in E. apply orb_true_iff in E. destruct E as [E|E];
      apply Nat.eqb_eq, length_zero_iff_nil in E.
    - rewrite E in Hr. destruct Hr.
    - rewrite E. reflexivity. }
  fold cleaned.
  destruct (has_column "GewijzigdOp" cleaned) eqn:Hcol.
  2: { apply Hnone. intros r _. apply get_cell_absent, Hcol. }
  destruct (column_index_present _ _ Hcol) as [i Hi].
  eexists. split; [reflexivity|]. split; [exact Hsent|].
  assert (Hsel :
            filter (between (columns cleaned) "GewijzigdOp" pre_start_dt pre_end_dt)
                   (map (map_nth i (to_datetime_cell to_datetime)) (rows cleaned))
            = map (map_nth i (to_datetime_cell to_datetime))
                  (filter (within_window to_datetime pre_start_dt pre_end_dt
                                         (columns cleaned))
                          (rows cleaned))).
  { rewrite filter_map_swap. f_equal. apply filter_ext. intros r.
    apply between_converted, Hi. }
  unfold assign_column, select_rows. cbn [columns rows]. rewrite Hi.
  cbn [columns rows]. split; [exact Hsel|].
  intros r Hr. apply filter_In in Hr. destruct Hr as [_ Hr].
  unfold between in Hr.
  destruct (get_cell (columns cleaned) r "GewijzigdOp"); try discriminate.
  apply andb_true_iff in Hr. destruct Hr as [Hlo Hhi].
  apply Z.leb_le in Hlo, Hhi. exists ns. auto.
Qed.

End Fallback.

Lemma main_fallback_window_witness :
  let pending := [Json (Some []) None; Json (Some sample_votes) None] in
  parse_utc CNA = None
  /\ Paginated.fetch_paginated_data "Stemming" (Some pre_filter) pending []
     = Some (empty_frame, [Json (Some sample_votes) None],
             requests "Stemming" (Some pre_filter) 0 1)
  /\ exists pre_data sent2,
      main_pre_data parse_utc pending [] = Some (pre_data, [], sent2)
      /\ rows pre_data
         = [[CStr "b-1"; CStr "VVD"; CStr "Voor"; CTime 1669075200000000000];
            [CStr "b-1"; CStr "SP"; CStr "Tegen"; CTime 1700611199000000000]].
Proof.
  intros pending.
  assert (H1 : Paginated.fetch_paginated_data "Stemming" (Some pre_filter) pending []
               = Some (empty_frame, [Json (Some sample_votes) None],
                       requests "Stemming" (Some pre_filter) 0 1))
    by reflexivity.
  assert (H2 : Paginated.fetch_paginated_data "Stemming" None
                 [Json (Some sample_votes) None]
                 (requests "Stemming" (Some pre_filter) 0 1)
               = Some (DataFrame_of sample_votes, [],
                       requests "Stemming" (Some pre_filter) 0 1
                       ++ requests "Stemming" None 0 1))
    by reflexivity.
  split; [reflexivity|]. split; [exact H1|].
  destruct (main_fallback_window parse_utc eq_refl pending [] _ _ _ _ _ _
              H1 eq_refl H2) as [pre_data [Hmain [_ [Hrows _]]]].
  exists pre_data. eexists. split; [exact Hmain|].
  rewrite Hrows. reflexivity.
Defined.

(** C3, as stated, fails: a vote modified on 2023-11-21 at 23:59:59.5 UTC
    falls on the last day of the window [2022-11-22, 2023-11-21], yet the
    fallback drops it, its instant being after the end bound
    2023-11-21 23:59:59. *)
Lemma main_fallback_drops_last_second :
  let vote := sample_vote 9 "VVD" "Voor" "2023-11-21T23:59:59.5Z" in
  let pending := [Json (Some []) None; Json (Some [vote]) None] in
  parse_utc_fraction (CStr "2023-11-21T23:59:59.5Z") = Some 1700611199500000000%Z
  /\ on_window_dates 1700611199500000000 = true
  /\ rows (process_voting_data (DataFrame_of [vote]))
     = [[CStr "b-1"; CStr "VVD"; CStr "Voor"; CStr "2023-11-21T23:59:59.5Z"]]
  /\ main_pre_data parse_utc_fraction pending []
     = Some (mkDF essential_cols [], [],
             requests "Stemming" (Some pre_filter) 0 1
             ++ requests "Stemming" None 0 1).
Proof.
  repeat split; reflexivity.
Qed.

(* ================================================================== *)
(** * Further properties of the cleaning step *)
(* ================================================================== *)

Lemma dedup_from_NoDup {A : Type} (eq_dec : forall a b : A, {a = b} + {a <> b})
      (l : list A) :
  forall seen, NoDup (dedup_from eq_dec seen l).
Proof.
  induction l as [|x l IH]; intros seen; simpl; [constructor|].
  destruct (in_dec eq_dec x seen) as [Hx|Hx]; [apply IH|].
  constructor; [|apply IH].
  intros Hin. apply dedup_from_In in Hin. destruct Hin as [_ Hin].
  apply Hin. left. reflexivity.
Qed.

(** X1: a table that is not empty and has at least one of the four columns
    comes out of the cleaning step without duplicate rows. *)
Theorem process_voting_data_NoDup (df : DataFrame) :
  empty df = false ->
  available (columns df) <> [] ->
  NoDup (rows (process_voting_data df)).
Proof.
  intros E Hav. rewrite (process_voting_data_projected df E Hav).
  cbn [rows]. apply dedup_from_NoDup.
Qed.

Lemma process_voting_data_NoDup_witness :
  let df := mkDF ["Besluit_Id"; "Soort"]%string
                 [[CStr "b-1"; CStr "Voor"]; [CStr "b-1"; CStr "Voor"];
                  [CStr "b-2"; CStr "Tegen"]; [CStr "b-1"; CStr "Voor"]] in
  empty df = false
  /\ available (columns df) <> []
  /\ NoDup (rows (process_voting_data df))
  /\ rows (process_voting_data df)
     = [[CStr "b-1"; CStr "Voor"]; [CStr "b-2"; CStr "Tegen"]].
Proof.
  intros df.
  assert (E : empty df = false) by reflexivity.
  assert (Hav : available (columns df) <> []) by (vm_compute; discriminate).
  split; [exact E|]. split; [exact Hav|]. split.
  - exact (process_voting_data_NoDup df E Hav).
  - reflexivity.
Defined.

(** X2: for a table that is not empty and has at least one of the four
    columns, the rows of the result are exactly the projections, to the
    columns present among the four, of the input rows that pass the
    vote-type filter (all input rows when there is no ["Soort"] column). *)
Theorem process_voting_data_rows (df : DataFrame) (r' : row) :
  empty df = false ->
  available (columns df) <> [] ->
  In r' (rows (process_voting_data df))
  <-> exists r, In r (rows df)
                /\ (has_column "Soort" df = true -> is_vote (columns df) r = true)
                /\ r' = project_row (columns df) (available (columns df)) r.
Proof.
  intros E Hav. rewrite (process_voting_data_projected df E Hav).
  cbn [rows]. rewrite dedup_from_In, in_map_iff. unfold kept_rows.
  destruct (has_column "Soort" df); split.
  - intros [[r [<- Hr]] _]. apply filter_In in Hr. destruct Hr as [Hr Hv].
    exists r. auto.
  - intros [r [Hr [Hv ->]]]. split; [|intros []].
    exists r. split; [reflexivity|]. apply filter_In. auto.
  - intros [[r [<- Hr]] _]. exists r. split; [exact Hr|].
    split; [discriminate | reflexivity].
  - intros [r [Hr [_ ->]]]. split; [|intros []]. exists r. auto.
Qed.

Lemma process_voting_data_rows_witness :
  let df := mkDF ["Id"; "Soort"; "ActorFractie"]%string
                 [[CInt 1; CStr "Voor"; CStr "VVD"];
                  [CInt 2; CStr "Onthouden"; CStr "SP"]] in
  empty df = false
  /\ available (columns df) <> []
  /\ In [CStr "VVD"; CStr "Voor"] (rows (process_voting_data df))
  /\ ~ In [CStr "SP"; CStr "Onthouden"] (rows (process_voting_data df)).
Proof.
  intros df.
  assert (E : empty df = false) by reflexivity.
  assert (Hav : available (columns df) <> []) by (vm_compute; discriminate).
  split; [exact E|]. split; [exact Hav|]. split.
  - apply (process_voting_data_rows df _ E Hav).
    exists [CInt 1; CStr "Voor"; CStr "VVD"].
    split; [left; reflexivity|]. split; reflexivity.
  - intros Hin. apply (process_voting_data_rows df _ E Hav) in Hin.
    destruct Hin as [r [Hr [Hv Heq]]].
    destruct Hr as [<-|[<-|[]]]; [discriminate Heq|].
    specialize (Hv eq_refl). discriminate Hv.
Defined.

Lemma isin_In (c : cell) (values : list cell) :
  isin c values = true <-> In c values.
Proof.
  unfold isin. destruct (in_dec cell_eq_dec c values); split; auto; discriminate.
Qed.

(** X3: when the table is not empty and has a ["Soort"] column, every row
    of the result carries "Voor" or "Tegen" in that column. *)
Theorem process_voting_data_only_votes (df : DataFrame) (r' : row) :
  empty df = false ->
  has_column "Soort" df = true ->
  In r' (rows (process_voting_data df)) ->
  get_cell (columns (process_voting_data df)) r' "Soort" = CStr "Voor"
  \/ get_cell (columns (process_voting_data df)) r' "Soort" = CStr "Tegen".
Proof.
  intros E HS Hin.
  assert (HSav : mem_string "Soort" (available (columns df)) = true)
    by (apply Soort_available, HS).
  assert (Hav : available (columns df) <> []).
  { intros Hnil. rewrite Hnil in HSav. discriminate. }
  rewrite (process_voting_data_projected df E Hav) in *.
  cbn [rows columns] in *.
  apply dedup_from_In in Hin. destruct Hin as [Hin _].
  apply in_map_iff in Hin. destruct Hin as [r [<- Hr]].
  unfold kept_rows in Hr. rewrite HS in Hr. apply filter_In in Hr.
  destruct Hr as [_ Hv].
  rewrite get_cell_project by exact HSav.
  unfold is_vote in Hv. apply isin_In in Hv.
  destruct Hv as [<-|[<-|[]]]; auto.
Qed.

Lemma process_voting_data_only_votes_witness :
  let df := mkDF ["Soort"; "Id"]%string
                 [[CStr "Tegen"; CInt 1]; [CStr "Niet deelgenomen"; CInt 2]] in
  empty df = false
  /\ has_column "Soort" df = true
  /\ In [CStr "Tegen"] (rows (process_voting_data df))
  /\ (get_cell (columns (process_voting_data df)) [CStr "Tegen"] "Soort" = CStr "Voor"
      \/ get_cell (columns (process_voting_data df)) [CStr "Tegen"] "Soort" = CStr "Tegen").
Proof.
  intros df.
  assert (Hin : In [CStr "Tegen"] (rows (process_voting_data df)))
    by (left; reflexivity).
  split; [reflexivity|]. split; [reflexivity|]. split; [exact Hin|].
  exact (process_voting_data_only_votes df _ eq_refl eq_refl Hin).
Defined.

Lemma process_voting_data_columns_incl (df : DataFrame) (c : string) :
  In c (columns (process_voting_data df)) -> In c (columns df).
Proof.
  rewrite process_voting_data_cases. destruct (empty df); [auto|]. cbv zeta.
  destruct (available (columns df)) as [|c0 cs] eqn:Hav; cbn [columns]; [auto|].
  rewrite <- Hav. unfold available. rewrite filter_In, mem_string_In. tauto.
Qed.

(** X4: the cleaning step never introduces a column: every column of the
    result is a column of the input, whatever the input. *)
Theorem process_voting_data_columns (df : DataFrame) (c : string) :
  In c (columns (process_voting_data df)) -> In c (columns df).
Proof. apply process_voting_data_columns_incl. Qed.

Lemma process_voting_data_columns_witness :
  let df := mkDF ["Id"; "Soort"; "ActorFractie"]%string
                 [[CInt 1; CStr "Voor"; CStr "VVD"]] in
  In "Soort"%string (columns (process_voting_data df))
  /\ In "Soort"%string (columns df).
Proof.
  intros df.
  assert (Hin : In "Soort"%string (columns (process_voting_data df)))
    by (right; left; reflexivity).
  split; [exact Hin|].
  exact (process_voting_data_columns df _ Hin).
Defined.

(** ** Cleaning a frame built from records *)

Lemma record_keys_sub (recs : list record) (r : record) :
  In r recs -> forall k, In k (map fst r) -> In k (record_keys recs).
Proof. intros Hr k Hk. exact (record_keys_In recs r k Hr Hk). Qed.

(** X5: cleaning the frame of a non-empty list of JSON records in which
    each of the four keys occurs: the result has the four columns, and its
    rows are the four fields of the records whose ["Soort"] field is "Voor"
    or "Tegen" (a field a record lacks is missing), in order, each
    combination once. *)
Theorem process_voting_data_of_records (recs : list record) :
  recs <> [] ->
  (forall c, In c essential_cols -> In c (field_names recs)) ->
  process_voting_data (DataFrame_of recs)
  = mkDF essential_cols
         (dedup_from row_eq_dec []
            (map (fun r => map (fun c => lookup_field c r) essential_cols)
                 (filter (fun r => isin (lookup_field "Soort" r) vote_types)
                         recs))).
Proof.
  intros Hne Hkeys.
  assert (Hcols : forall c, In c essential_cols -> In c (record_keys recs)).
  { intros c Hc. unfold record_keys. apply dedup_from_In.
    split; [apply Hkeys, Hc | intros []]. }
  assert (Hall : available (columns (DataFrame_of recs)) = essential_cols).
  { apply available_all, forallb_forall. intros c Hc.
    apply mem_string_In, Hcols, Hc. }
  assert (HS : has_column "Soort" (DataFrame_of recs) = true).
  { apply mem_string_In, Hcols. unfold essential_cols. simpl. auto. }
  assert (E : empty (DataFrame_of recs) = false).
  { unfold empty, DataFrame_of. cbn [rows columns]. rewrite length_map.
    apply orb_false_iff. split; apply Nat.eqb_neq.
    - destruct recs; [contradiction | discriminate].
    - specialize (Hcols "Soort"%string ltac:(unfold essential_cols; simpl; auto)).
      destruct (record_keys recs); [destruct Hcols | discriminate]. }
  rewrite (process_voting_data_projected _ E) by (rewrite Hall; discriminate).
  rewrite Hall. f_equal. f_equal.
  unfold kept_rows. rewrite HS. unfold DataFrame_of. cbn [rows columns].
  rewrite filter_map_swap, map_map.
  assert (Hfilter :
            filter (fun r => is_vote (record_keys recs)
                               (map (fun c => lookup_field c r) (record_keys recs)))
                   recs
            = filter (fun r => isin (lookup_field "Soort" r) vote_types) recs).
  { apply filter_ext_in. intros r Hr. unfold is_vote.
    rewrite get_cell_of_record; [reflexivity | apply record_keys_sub, Hr]. }
  rewrite Hfilter. apply map_ext_in. intros r Hr.
  apply filter_In in Hr. destruct Hr as [Hr _].
  unfold project_row. apply map_ext. intros c.
  apply get_cell_of_record, record_keys_sub, Hr.
Qed.

Lemma process_voting_data_of_records_witness :
  sample_votes <> []
  /\ (forall c, In c essential_cols -> In c (field_names sample_votes))
  /\ rows (process_voting_data (DataFrame_of sample_votes))
     = [[CStr "b-1"; CStr "VVD"; CStr "Voor"; CStr "2022-11-22T00:00:00Z"];
        [CStr "b-1"; CStr "PVV"; CStr "Voor"; CStr "2022-11-21T23:59:59Z"];
        [CStr "b-1"; CStr "SP"; CStr "Tegen"; CStr "2023-11-21T23:59:59Z"];
        [CStr "b-1"; CStr "CDA"; CStr "Tegen"; CStr "2023-11-22T00:00:00Z"]].
Proof.
  assert (Hne : sample_votes <> []) by discriminate.
  assert (Hkeys : forall c, In c essential_cols -> In c (field_names sample_votes)).
  { intros c Hc. unfold essential_cols in Hc. simpl in Hc.
    destruct Hc as [<-|[<-|[<-|[<-|[]]]]]; vm_compute; tauto. }
  split; [exact Hne|]. split; [exact Hkeys|].
  rewrite (process_voting_data_of_records sample_votes Hne Hkeys).
  reflexivity.
Defined.

(* ================================================================== *)
(** * Further properties of the two loops *)
(* ================================================================== *)

(** Any list of responses is either made of full pages only, or has a first
    response that is not a full page. *)
Lemma first_not_full {A : Type} (pending : list (response A)) :
  Forall (fun r => is_full r = true) pending
  \/ exists consumed last rest,
      pending = consumed ++ last :: rest
      /\ Forall (fun r => is_full r = true) consumed
      /\ is_full last = false.
Proof.
  induction pending as [|r pending IH]; [left; constructor|].
  destruct (is_full r) eqn:Hr.
  - destruct IH as [IH|[consumed [last [rest [-> [Hc Hl]]]]]].
    + left. constructor; assumption.
    + right. exists (r :: consumed), last, rest.
      split; [reflexivity|]. split; [constructor; assumption | exact Hl].
  - right. exists [], r, pending. split; [reflexivity|].
    split; [constructor | exact Hr].
Qed.

(** X6: every run of [fetch_paginated_data].  Either all the responses are
    full pages, and the function has not returned when they are used up; or
    it returns at the first response that is not a full page (a short or
    empty page, a payload without ["value"], an exception): the frame of all
    records received up to and including that response, one request per
    response consumed, at offsets 0, 250, 500, ..., the later responses not
    asked for. *)
Theorem fetch_paginated_data_outcome (endpoint : string)
        (filter_query : option string) (pending : list (response record))
        (sent : list string) :
  (Forall (fun r => is_full r = true) pending
   /\ Paginated.fetch_paginated_data endpoint filter_query pending sent = None)
  \/ (exists consumed last rest,
         pending = consumed ++ last :: rest
         /\ Forall (fun r => is_full r = true) consumed
         /\ is_full last = false
         /\ Paginated.fetch_paginated_data endpoint filter_query pending sent
            = Some (DataFrame_of (concat (map page_of (consumed ++ [last]))),
                    rest,
                    sent ++ requests endpoint filter_query 0 (S (length consumed)))).
Proof.
  destruct (first_not_full pending) as [Hall|[consumed [last [rest [-> [Hc Hl]]]]]].
  - left. split; [exact Hall|]. apply fetch_paginated_data_unfinished, Hall.
  - right. exists consumed, last, rest. repeat split; try assumption.
    apply fetch_paginated_data_run; assumption.
Qed.

Lemma list_sum_len_frames (pages : list (list record)) :
  list_sum (map len (map DataFrame_of pages)) = length (concat pages).
Proof.
  induction pages as [|p ps IH]; simpl; [reflexivity|].
  rewrite len_DataFrame_of, length_app, IH. reflexivity.
Qed.

(** The loop variables at the [break] of the offset-based loop. *)
Lemma paginated_loop_break (endpoint : string) (filter_query : option string)
      (consumed : list (response record)) (last : response record)
      (rest : list (response record)) (sent : list string) :
  Forall (fun r => is_full r = true) consumed ->
  is_full last = false ->
  Paginated.loop endpoint filter_query (consumed ++ last :: rest)
                 Paginated.initial sent
  = mkRun (Paginated.mkState
             (map DataFrame_of (map page_of consumed)
              ++ match page_of last with
                 | [] => []
                 | _ :: _ => [DataFrame_of (page_of last)]
                 end)
             (250 * Z.of_nat (length consumed))
             (1 + Z.of_nat (length consumed))
             (Z.of_nat (length (concat (map page_of (consumed ++ [last]))))))
          rest
          (sent ++ requests endpoint filter_query 0 (S (length consumed)))
          true.
Proof.
  intros Hc Hl.
  rewrite (paginated_loop_full endpoint filter_query consumed Hc).
  rewrite requests_snoc, app_assoc, map_app, concat_app, length_app.
  cbn [Paginated.initial Paginated.all_data Paginated.skip
       Paginated.batch_num Paginated.total_records app map concat].
  rewrite app_nil_r.
  destruct last as [|[v|] l]; cbn [Paginated.loop page_of Paginated.all_data
                                   Paginated.skip Paginated.batch_num
                                   Paginated.total_records length].
  - rewrite app_nil_r, Nat.add_0_r. reflexivity.
  - destruct v as [|x v].
    + cbn [length Nat.eqb]. rewrite app_nil_r, Nat.add_0_r. reflexivity.
    + cbn [length Nat.eqb]. simpl in Hl. apply Z.leb_gt in Hl.
      rewrite len_DataFrame_of.
      assert (Hlt : (Z.of_nat (length (x :: v)) <? BATCH_SIZE)%Z = true)
        by (apply Z.ltb_lt; exact Hl).
      rewrite Hlt. cbn [Paginated.all_data Paginated.skip Paginated.batch_num
                        Paginated.total_records].
      f_equal. f_equal. cbn [length]. lia.
  - rewrite app_nil_r, Nat.add_0_r. reflexivity.
Qed.

(** X7: the counters of the offset-based loop at its [break]: [skip] is
    250 times the number of full pages received, [batch_num] is one more
    than that number, and [total_records] is the number of rows of the frames
    gathered, which is the number of rows of the frame returned. *)
Theorem paginated_loop_counters (endpoint : string) (filter_query : option string)
        (consumed : list (response record)) (last : response record)
        (rest : list (response record)) (sent : list string) :
  Forall (fun r => is_full r = true) consumed ->
  is_full last = false ->
  let r := Paginated.loop endpoint filter_query (consumed ++ last :: rest)
                          Paginated.initial sent in
  finished r = true
  /\ Paginated.skip (final r) = (250 * Z.of_nat (length consumed))%Z
  /\ Paginated.batch_num (final r) = (1 + Z.of_nat (length consumed))%Z
  /\ Paginated.total_records (final r)
     = Z.of_nat (list_sum (map len (Paginated.all_data (final r))))
  /\ Paginated.total_records (final r)
     = Z.of_nat (len (pd_concat (Paginated.all_data (final r)))).
Proof.
  intros Hc Hl r. unfold r.
  rewrite (paginated_loop_break endpoint filter_query consumed last rest sent Hc Hl).
  cbn [finished final Paginated.skip Paginated.batch_num
       Paginated.total_records Paginated.all_data].
  assert (Hframes :
            map DataFrame_of (map page_of consumed)
            ++ match page_of last with
               | [] => []
               | _ :: _ => [DataFrame_of (page_of last)]
               end
            = map DataFrame_of
                  (map page_of consumed
                   ++ match page_of last with [] => [] | _ :: _ => [page_of last] end)).
  { rewrite map_app. destruct (page_of last); reflexivity. }
  assert (Hcat :
            concat (map page_of consumed
                    ++ match page_of last with [] => [] | _ :: _ => [page_of last] end)
            = concat (map page_of (consumed ++ [last]))).
  { rewrite map_app, !concat_app. f_equal. cbn [map concat].
    rewrite app_nil_r.
    destruct (page_of last); simpl; rewrite ?app_nil_r; reflexivity. }
  repeat split.
  - rewrite Hframes, list_sum_len_frames, Hcat. reflexivity.
  - rewrite Hframes, pd_concat_DataFrame_of, len_DataFrame_of, Hcat. reflexivity.
Qed.

Lemma paginated_loop_counters_witness :
  let vote := [("Id", CInt 7); ("Soort", CStr "Voor")]%string in
  let page n := Json (Some (repeat vote n)) None in
  let r := Paginated.loop "Stemming" None [page 250; page 250; page 90; page 250]
                          Paginated.initial [] in
  Forall (fun r => is_full r = true) [page 250; page 250]
  /\ is_full (page 90) = false
  /\ Paginated.skip (final r) = 500%Z
  /\ Paginated.batch_num (final r) = 3%Z
  /\ Paginated.total_records (final r) = 590%Z.
Proof.
  intros vote page r.
  assert (Hc : Forall (fun r => is_full r = true) [page 250; page 250])
    by (repeat constructor).
  assert (Hl : is_full (page 90) = false) by reflexivity.
  split; [exact Hc|]. split; [exact Hl|].
  destruct (paginated_loop_counters "Stemming" None [page 250; page 250]
              (page 90) [page 250] [] Hc Hl) as [_ [Hs [Hb [Ht _]]]].
  split; [exact Hs|]. split; [exact Hb|].
  etransitivity; [exact Ht | vm_compute; reflexivity].
Defined.

Section CoauthoringRuns.

Context {item : Type}.
Variables date_from date_to : string.

Local Abbreviation loop := (Coauthoring.loop (item := item) date_from date_to).
Local Abbreviation step := (advance (item := item) date_from date_to).
Local Abbreviation init := (Coauthoring.initial (item := item) date_from date_to).

Lemma fold_left_step_seen (rs : list (response item)) :
  forall st,
    Coauthoring.seen (fold_left step rs st)
    = (Coauthoring.seen st + Z.of_nat (length (concat (map page_of rs))))%Z.
Proof.
  induction rs as [|r rs IH]; intros st.
  - simpl. lia.
  - cbn [fold_left map concat]. rewrite IH, length_app. unfold advance.
    destruct (truthy (link_of r)); cbn [Coauthoring.seen]; lia.
Qed.

Lemma fold_left_step_batch_num (rs : list (response item)) :
  forall st,
    Coauthoring.batch_num (fold_left step rs st)
    = (Coauthoring.batch_num st + Z.of_nat (length rs))%Z.
Proof.
  induction rs as [|r rs IH]; intros st.
  - simpl. lia.
  - cbn [fold_left length]. rewrite IH. unfold advance.
    destruct (truthy (link_of r)); cbn [Coauthoring.batch_num]; lia.
Qed.

(** The loop at its [break]. *)
Lemma coauthoring_loop_break (consumed : list (response item))
      (last : response item) (rest : list (response item))
      (st : Coauthoring.state item) (sent : list string) :
  Forall (fun r => is_full r = true) consumed ->
  is_full last = false ->
  let st' := fold_left step consumed st in
  loop (consumed ++ last :: rest) st sent
  = mkRun (Coauthoring.mkState
             (Coauthoring.url st')
             (Coauthoring.all_items st' ++ page_of last)
             (Coauthoring.seen st' + Z.of_nat (length (page_of last)))
             (Coauthoring.batch_num st') (Coauthoring.skip st'))
          rest
          (sent ++ visited date_from date_to st consumed ++ [Coauthoring.url st'])
          true.
Proof.
  intros Hc Hl st'.
  rewrite (coauthoring_loop_full date_from date_to consumed Hc).
  fold st'. rewrite (coauthoring_loop_stop date_from date_to last rest _ _ Hl).
  rewrite <- app_assoc. reflexivity.
Qed.

Lemma fetch_coauthoring_data_run (consumed : list (response item))
      (last : response item) (rest : list (response item)) (sent : list string) :
  Forall (fun r => is_full r = true) consumed ->
  is_full last = false ->
  Coauthoring.fetch_coauthoring_data date_from date_to
                                     (consumed ++ last :: rest) sent
  = Some (concat (map page_of (consumed ++ [last])), rest,
          sent ++ visited date_from date_to init consumed
               ++ [Coauthoring.url (fold_left step consumed init)]).
Proof.
  intros Hc Hl. unfold Coauthoring.fetch_coauthoring_data. cbv zeta.
  rewrite (coauthoring_loop_break consumed last rest init sent Hc Hl).
  cbn [finished final unread urls_sent Coauthoring.all_items].
  rewrite fold_left_step_all_items, map_app, concat_app.
  cbn [Coauthoring.initial Coauthoring.all_items app map concat].
  rewrite app_nil_r. reflexivity.
Qed.

Lemma fetch_coauthoring_data_unfinished (rs : list (response item))
      (sent : list string) :
  Forall (fun r => is_full r = true) rs ->
  Coauthoring.fetch_coauthoring_data date_from date_to rs sent = None.
Proof.
  intros Hrs. unfold Coauthoring.fetch_coauthoring_data. cbv zeta.
  pose proof (coauthoring_loop_full date_from date_to rs Hrs [] init sent) as H.
  rewrite app_nil_r in H. rewrite H. reflexivity.
Qed.

(** The requests of a run start with the URL held at its start, followed by
    one URL for each full page. *)
Lemma visited_then_last (rs : list (response item)) :
  forall st,
  exists asked,
    visited date_from date_to st rs ++ [Coauthoring.url (fold_left step rs st)]
    = Coauthoring.url st :: asked
    /\ length asked = length rs.
Proof.
  induction rs as [|r rs IH]; intros st.
  - exists []. split; reflexivity.
  - destruct (IH (step st r)) as [asked [Heq Hlen]].
    exists (Coauthoring.url (step st r) :: asked).
    cbn [visited fold_left app]. rewrite Heq. split; [reflexivity|].
    simpl. rewrite Hlen. reflexivity.
Qed.

(** Without next links the URLs are the rebuilt ones, at offsets growing by
    250. *)
Lemma visited_offsets (rs : list (response item)) :
  Forall (fun r => truthy (link_of r) = false) rs ->
  forall st,
    visited date_from date_to st rs ++ [Coauthoring.url (fold_left step rs st)]
    = Coauthoring.url st
      :: map (fun i => Coauthoring.fallback_url date_from date_to
                         (Coauthoring.skip st + 250 * Z.of_nat i)%Z)
             (seq 1 (length rs)).
Proof.
  induction 1 as [|r rs Hr _ IH]; intros st; [reflexivity|].
  cbn [visited fold_left app length]. rewrite IH.
  rewrite <- cons_seq. cbn [map]. f_equal.
  unfold advance. rewrite Hr. cbn [Coauthoring.url Coauthoring.skip].
  f_equal.
  rewrite <- (seq_shift (length rs) 1), map_map. apply map_ext.
  intros i. f_equal. lia.
Qed.

(** With next links throughout the URLs are the links, in order. *)
Lemma visited_links (rs : list (response item)) :
  Forall (fun r => truthy (link_of r) = true) rs ->
  forall st,
    visited date_from date_to st rs ++ [Coauthoring.url (fold_left step rs st)]
    = Coauthoring.url st :: map (fun r => text_of (link_of r)) rs.
Proof.
  induction 1 as [|r rs Hr _ IH]; intros st; [reflexivity|].
  cbn [visited fold_left app map]. rewrite IH. f_equal.
  unfold advance. rewrite Hr. reflexivity.
Qed.

End CoauthoringRuns.

(** X8: every run of [fetch_coauthoring_data].  Either all the responses
    are full pages, and the function has not returned when they are used up;
    or it returns at the first response that is not a full page (fewer than
    250 items, a payload without ["value"], an exception): all the items
    received up to and including that response, in order; the first request
    is the initial URL and one request was sent per response consumed. *)
Theorem fetch_coauthoring_data_outcome {item : Type} (date_from date_to : string)
        (pending : list (response item)) (sent : list string) :
  (Forall (fun r => is_full r = true) pending
   /\ Coauthoring.fetch_coauthoring_data date_from date_to pending sent = None)
  \/ (exists consumed last rest asked,
         pending = consumed ++ last :: rest
         /\ Forall (fun r => is_full r = true) consumed
         /\ is_full last = false
         /\ length asked = length consumed
         /\ Coauthoring.fetch_coauthoring_data date_from date_to pending sent
            = Some (concat (map page_of (consumed ++ [last])), rest,
                    sent ++ Coauthoring.initial_url date_from date_to :: asked)).
Proof.
  destruct (first_not_full pending) as [Hall|[consumed [last [rest [-> [Hc Hl]]]]]].
  - left. split; [exact Hall|]. apply fetch_coauthoring_data_unfinished, Hall.
  - right.
    destruct (visited_then_last date_from date_to consumed
                (Coauthoring.initial date_from date_to)) as [asked [Heq Hlen]].
    exists consumed, last, rest, asked. repeat split; try assumption.
    rewrite (fetch_coauthoring_data_run date_from date_to consumed last rest sent
                                        Hc Hl).
    rewrite Heq. reflexivity.
Qed.

(** X9: the counters of the cursor-based loop at its [break]: [seen] is
    the number of items gathered in [all_items], [batch_num] is one more
    than the number of full pages received, and [skip] is 250 times the
    number of those pages that came without a next link. *)
Theorem coauthoring_loop_counters {item : Type} (date_from date_to : string)
        (consumed : list (response item)) (last : response item)
        (rest : list (response item)) (sent : list string) :
  Forall (fun r => is_full r = true) consumed ->
  is_full last = false ->
  let r := Coauthoring.loop date_from date_to (consumed ++ last :: rest)
                            (Coauthoring.initial date_from date_to) sent in
  finished r = true
  /\ Coauthoring.seen (final r)
     = Z.of_nat (length (Coauthoring.all_items (final r)))
  /\ Coauthoring.batch_num (final r) = (1 + Z.of_nat (length consumed))%Z
  /\ Coauthoring.skip (final r) = (250 * Z.of_nat (fallback_steps consumed))%Z.
Proof.
  intros Hc Hl r. unfold r.
  rewrite (coauthoring_loop_break date_from date_to consumed last rest _ sent Hc Hl).
  cbn [finished final Coauthoring.seen Coauthoring.all_items
       Coauthoring.batch_num Coauthoring.skip].
  rewrite fold_left_step_seen, fold_left_step_all_items,
    fold_left_step_batch_num, fold_left_step_skip.
  cbn [Coauthoring.initial Coauthoring.seen Coauthoring.all_items
       Coauthoring.batch_num Coauthoring.skip app].
  rewrite length_app. repeat split; lia.
Qed.

Lemma coauthoring_loop_counters_witness :
  let page l := Json (Some (repeat "doc"%string 250)) l in
  let consumed := [page (Some "https://gegevensmagazijn.tweedekamer.nl/p2"%string);
                   page None] in
  let last := Json (Some (repeat "doc"%string 40)) None in
  let r := Coauthoring.loop "2022-11-22" "2023-11-21" (consumed ++ [last])
                            (Coauthoring.initial "2022-11-22" "2023-11-21") [] in
  Forall (fun r => is_full r = true) consumed
  /\ is_full last = false
  /\ Coauthoring.seen (final r) = 540%Z
  /\ length (Coauthoring.all_items (final r)) = 540
  /\ Coauthoring.batch_num (final r) = 3%Z
  /\ Coauthoring.skip (final r) = 250%Z.
Proof.
  intros page consumed last r.
  assert (Hc : Forall (fun r => is_full r = true) consumed) by (repeat constructor).
  assert (Hl : is_full last = false) by reflexivity.
  split; [exact Hc|]. split; [exact Hl|].
  destruct (coauthoring_loop_counters "2022-11-22" "2023-11-21" consumed last []
              [] Hc Hl) as [_ [Hseen [Hb Hs]]].
  split; [|split; [|split]].
  - etransitivity; [exact Hseen | vm_compute; reflexivity].
  - vm_compute. reflexivity.
  - exact Hb.
  - exact Hs.
Defined.

(** X10: when no response carries a usable next link, the cursor-based
    fetch is plain offset pagination: after the initial URL (which has no
    [$skip]) the i-th further request is the rebuilt URL with
    [$skip] = 250 * i. *)
Theorem fetch_coauthoring_data_offsets {item : Type} (date_from date_to : string)
        (consumed : list (response item)) (last : response item)
        (rest : list (response item)) (sent : list string) :
  Forall (fun r => is_full r = true) consumed ->
  Forall (fun r => truthy (link_of r) = false) consumed ->
  is_full last = false ->
  Coauthoring.fetch_coauthoring_data date_from date_to
                                     (consumed ++ last :: rest) sent
  = Some (concat (map page_of (consumed ++ [last])), rest,
          sent
          ++ Coauthoring.initial_url date_from date_to
          :: map (fun i =>
                    BASE_URL +s+ "/Document?"
                    +s+ String.concat "&"
                          (map Coauthoring.query_part
                               (Coauthoring.params date_from date_to)
                           ++ ["$skip=" +s+ str (250 * Z.of_nat i)]))
                 (seq 1 (length consumed))).
Proof.
  intros Hc Hno Hl.
  rewrite (fetch_coauthoring_data_run date_from date_to consumed last rest sent
                                      Hc Hl).
  rewrite (visited_offsets date_from date_to consumed Hno). reflexivity.
Qed.

Lemma fetch_coauthoring_data_offsets_witness :
  let page := Json (Some (repeat "doc"%string 250)) None in
  let last := Json (Some ["doc"%string]) None in
  let first := Coauthoring.initial_url "2022-11-22" "2023-11-21" in
  Forall (fun r => is_full r = true) [page; page]
  /\ Forall (fun r => truthy (link_of r) = false) [page; page]
  /\ is_full last = false
  /\ Coauthoring.fetch_coauthoring_data "2022-11-22" "2023-11-21"
                                        [page; page; last] []
     = Some (repeat "doc"%string 501, [],
             [first; first +s+ "&$skip=250"; first +s+ "&$skip=500"]).
Proof.
  intros page last first.
  assert (Hc : Forall (fun r => is_full r = true) [page; page])
    by (repeat constructor).
  assert (Hno : Forall (fun r => truthy (link_of r) = false) [page; page])
    by (repeat constructor).
  assert (Hl : is_full last = false) by reflexivity.
  split; [exact Hc|]. split; [exact Hno|]. split; [exact Hl|].
  exact (fetch_coauthoring_data_offsets "2022-11-22" "2023-11-21" [page; page]
           last [] [] Hc Hno Hl).
Defined.

(** X11: when every full page carries a non-empty next link, the requests
    after the initial URL are exactly these links, in the order received, and
    no offset-based URL is built. *)
Theorem fetch_coauthoring_data_links {item : Type} (date_from date_to : string)
        (consumed : list (response item)) (last : response item)
        (rest : list (response item)) (sent : list string) :
  Forall (fun r => is_full r = true) consumed ->
  Forall (fun r => truthy (link_of r) = true) consumed ->
  is_full last = false ->
  Coauthoring.fetch_coauthoring_data date_from date_to
                                     (consumed ++ last :: rest) sent
  = Some (concat (map page_of (consumed ++ [last])), rest,
          sent
          ++ Coauthoring.initial_url date_from date_to
          :: map (fun r => text_of (link_of r)) consumed).
Proof.
  intros Hc Hlinks Hl.
  rewrite (fetch_coauthoring_data_run date_from date_to consumed last rest sent
                                      Hc Hl).
  rewrite (visited_links date_from date_to consumed Hlinks). reflexivity.
Qed.

Lemma fetch_coauthoring_data_links_witness :
  let page l := Json (Some (repeat "doc"%string 250)) (Some l) in
  let consumed := [page "https://gegevensmagazijn.tweedekamer.nl/p2"%string;
                   page "https://gegevensmagazijn.tweedekamer.nl/p3"%string] in
  let last := Json (Some ["doc"%string]) None in
  Forall (fun r => is_full r = true) consumed
  /\ Forall (fun r => truthy (link_of r) = true) consumed
  /\ is_full last = false
  /\ Coauthoring.fetch_coauthoring_data "2022-11-22" "2023-11-21"
                                        (consumed ++ [last]) []
     = Some (repeat "doc"%string 501, [],
             [Coauthoring.initial_url "2022-11-22" "2023-11-21";
              "https://gegevensmagazijn.tweedekamer.nl/p2"%string;
              "https://gegevensmagazijn.tweedekamer.nl/p3"%string]).
Proof.
  intros page consumed last.
  assert (Hc : Forall (fun r => is_full r = true) consumed) by (repeat constructor).
  assert (Hlinks : Forall (fun r => truthy (link_of r) = true) consumed)
    by (repeat constructor).
  assert (Hl : is_full last = false) by reflexivity.
  split; [exact Hc|]. split; [exact Hlinks|]. split; [exact Hl|].
  exact (fetch_coauthoring_data_links "2022-11-22" "2023-11-21" consumed
           last [] [] Hc Hlinks Hl).
Defined.

(* ================================================================== *)
(** * Further properties of the vote part of [main] *)
(* ================================================================== *)

Lemma columns_assign_column (c : string) (f : cell -> cell) (df : DataFrame) :
  columns (assign_column c f df) = columns df.
Proof.
  unfold assign_column. destruct (column_index c (columns df)); reflexivity.
Qed.

Lemma length_rows_assign_column (c : string) (f : cell -> cell) (df : DataFrame) :
  length (rows (assign_column c f df)) = length (rows df).
Proof.
  unfold assign_column. destruct (column_index c (columns df)); [|reflexivity].
  cbn [rows]. apply length_map.
Qed.

Lemma has_column_process (c : string) (df : DataFrame) :
  has_column c (process_voting_data df) = true -> has_column c df = true.
Proof.
  unfold has_column. rewrite !mem_string_In.
  apply process_voting_data_columns_incl.
Qed.

Lemma between_bounds (cols : list string) (lo hi : Z) (r : row) :
  between cols "GewijzigdOp" lo hi r = true ->
  exists t, get_cell cols r "GewijzigdOp" = CTime t /\ (lo <= t)%Z /\ (t <= hi)%Z.
Proof.
  unfold between. destruct (get_cell cols r "GewijzigdOp"); try discriminate.
  intros H. apply andb_true_iff in H. destruct H as [Hlo Hhi].
  apply Z.leb_le in Hlo, Hhi. eauto.
Qed.

Lemma process_voting_data_length_le (df : DataFrame) :
  len (process_voting_data df) <= len df.
Proof.
  unfold len. rewrite process_voting_data_cases.
  destruct (empty df); [apply Nat.le_refl|]. cbv zeta.
  assert (Hk : length (if has_column "Soort" df
                       then filter (is_vote (columns df)) (rows df)
                       else rows df) <= length (rows df)).
  { destruct (has_column "Soort" df);
      [apply filter_length_le | apply Nat.le_refl]. }
  destruct (available (columns df)); cbn [rows]; [exact Hk|].
  eapply Nat.le_trans; [apply dedup_from_length|].
  rewrite length_map. exact Hk.
Qed.

Lemma nunique_le (c : string) (df : DataFrame) : nunique c df <= len df.
Proof.
  unfold nunique, len.
  eapply Nat.le_trans; [apply dedup_from_length|].
  eapply Nat.le_trans; [apply filter_length_le|].
  rewrite length_map. apply Nat.le_refl.
Qed.

Section MainVotesProperties.

Variable to_datetime : cell -> option Z.

(** The table [main] writes, as a function of [pre_data]. *)
Lemma pre_report_csv (pre_data csv : DataFrame) :
  csv_of (pre_report to_datetime pre_data) = Some csv ->
  let cleaned := process_voting_data pre_data in
  empty pre_data = false
  /\ csv = (if has_column "GewijzigdOp" cleaned
            then select_rows
                   (between (columns cleaned) "GewijzigdOp" pre_start_dt pre_end_dt)
                   (assign_column "GewijzigdOp" (to_datetime_cell to_datetime)
                                  cleaned)
            else cleaned).
Proof.
  unfold pre_report. destruct (empty pre_data); cbn [negb]; [discriminate|].
  cbv zeta. rewrite columns_assign_column.
  match goal with
  | |- csv_of (if ?b then _ else _) = _ -> _ => destruct b
  end; cbn [csv_of]; intros H; injection H as <-; split; reflexivity.
Qed.

(** X12: when the date-filtered fetch returns a frame that is not empty,
    [main] takes it as [pre_data] without a second fetch: every request sent
    carries the date filter. *)
Theorem main_pre_data_success
        (pending : list (response record)) (sent : list string)
        (filtered : DataFrame) (pending1 : list (response record))
        (sent1 : list string) :
  Paginated.fetch_paginated_data "Stemming" (Some pre_filter) pending sent
  = Some (filtered, pending1, sent1) ->
  empty filtered = false ->
  main_pre_data to_datetime pending sent = Some (filtered, pending1, sent1)
  /\ exists k,
      sent1 = sent
              ++ map (fun i =>
                        BASE_URL +s+ "/Stemming?$filter=" +s+ quote pre_filter
                        +s+ "&$top=250&$skip=" +s+ str (250 * Z.of_nat i))
                     (seq 0 k).
Proof.
  intros H1 E. split.
  - unfold main_pre_data. rewrite H1, E. reflexivity.
  - destruct (fetch_paginated_data_requests _ _ _ _ _ _ _ H1) as [k Hk].
    exists k. rewrite Hk. unfold requests.
    rewrite (map_ext
               (fun i => Paginated.url_of "Stemming" (Some pre_filter)
                                          (0 + 250 * Z.of_nat i)%Z)
               (fun i => BASE_URL +s+ "/Stemming?$filter=" +s+ quote pre_filter
                         +s+ "&$top=250&$skip=" +s+ str (250 * Z.of_nat i)));
      [reflexivity|].
    intros i. rewrite Z.add_0_l. unfold Paginated.url_of.
    generalize (str (250 * Z.of_nat i)). intros skip. vm_compute. reflexivity.
Qed.

(** X13: when the date-filtered fetch gives zero rows and the unfiltered
    data has no ["GewijzigdOp"] column, nothing is kept of the votes fetched:
    no table is written and the run reports that no data was found. *)
Theorem main_pre_votes_no_timestamps
        (pending : list (response record)) (sent : list string)
        (filtered : DataFrame) (pending1 : list (response record))
        (sent1 : list string)
        (all_data : DataFrame) (pending2 : list (response record))
        (sent2 : list string) :
  Paginated.fetch_paginated_data "Stemming" (Some pre_filter) pending sent
  = Some (filtered, pending1, sent1) ->
  len filtered = 0 ->
  Paginated.fetch_paginated_data "Stemming" None pending1 sent1
  = Some (all_data, pending2, sent2) ->
  has_column "GewijzigdOp" all_data = false ->
  main_pre_votes to_datetime pending sent = Some (NoData, pending2, sent2).
Proof.
  intros H1 Hlen H2 Hcol.
  assert (Hempty : empty filtered = true).
  { unfold empty. unfold len in Hlen. rewrite Hlen. reflexivity. }
  assert (Hcol' : has_column "GewijzigdOp" (process_voting_data all_data) = false).
  { destruct (has_column "GewijzigdOp" (process_voting_data all_data)) eqn:E;
      [|reflexivity].
    apply has_column_process in E. congruence. }
  unfold main_pre_votes, main_pre_data. rewrite H1, Hempty, H2, Hcol'.
  destruct (negb (empty all_data)); unfold pre_report; rewrite Hempty;
    reflexivity.
Qed.

(** X14: whatever was fetched, when the table [main] writes has a
    ["GewijzigdOp"] column, every row of it holds an instant of the window
    2022-11-22 00:00:00 .. 2023-11-21 23:59:59 (UTC) in that column. *)
Theorem main_pre_votes_within_window
        (pending : list (response record)) (sent : list string)
        (rep : report) (pending' : list (response record)) (sent' : list string)
        (csv : DataFrame) (r : row) :
  main_pre_votes to_datetime pending sent = Some (rep, pending', sent') ->
  csv_of rep = Some csv ->
  has_column "GewijzigdOp" csv = true ->
  In r (rows csv) ->
  exists t, get_cell (columns csv) r "GewijzigdOp" = CTime t
            /\ (Timestamp 2022 11 22 0 0 0 <= t)%Z
            /\ (t <= Timestamp 2023 11 21 23 59 59)%Z.
Proof.
  unfold main_pre_votes.
  destruct (main_pre_data to_datetime pending sent) as [[[pre_data p] s]|];
    [|discriminate].
  intros H Hcsv Hcol Hr. injection H as <- _ _.
  apply pre_report_csv in Hcsv. destruct Hcsv as [_ Hcsv]. cbv zeta in Hcsv.
  destruct (has_column "GewijzigdOp" (process_voting_data pre_data)) eqn:E.
  - subst csv. unfold select_rows in *. cbn [rows columns] in *.
    apply filter_In in Hr. destruct Hr as [_ Hr].
    rewrite columns_assign_column. apply between_bounds, Hr.
  - subst csv. congruence.
Qed.

(** X15: when the frame that was fetched lacks the ["Besluit_Id"] or the
    ["ActorFractie"] column, [main] still writes the table and then fails
    with a [KeyError] in its summary line. *)
Theorem main_pre_votes_KeyError
        (pending : list (response record)) (sent : list string)
        (filtered : DataFrame) (pending1 : list (response record))
        (sent1 : list string) :
  Paginated.fetch_paginated_data "Stemming" (Some pre_filter) pending sent
  = Some (filtered, pending1, sent1) ->
  empty filtered = false ->
  has_column "Besluit_Id" filtered && has_column "ActorFractie" filtered = false ->
  exists csv,
    main_pre_votes to_datetime pending sent
    = Some (SavedThenKeyError csv, pending1, sent1).
Proof.
  intros H1 E Hmiss.
  unfold main_pre_votes, main_pre_data. rewrite H1, E.
  unfold pre_report. rewrite E. cbn [negb]. cbv zeta.
  match goal with
  | |- exists csv, Some ((if ?b then _ else _), _, _) = _ =>
      assert (Hb : b = false); [|rewrite Hb; eexists; reflexivity]
  end.
  apply andb_false_iff in Hmiss. apply andb_false_iff.
  assert (Hsub : forall c,
             has_column c
               (if has_column "GewijzigdOp" (process_voting_data filtered)
                then select_rows
                       (between
                          (columns
                             (assign_column "GewijzigdOp"
                                (to_datetime_cell to_datetime)
                                (process_voting_data filtered)))
                          "GewijzigdOp" pre_start_dt pre_end_dt)
                       (assign_column "GewijzigdOp" (to_datetime_cell to_datetime)
                          (process_voting_data filtered))
                else process_voting_data filtered) = true ->
             has_column c filtered = true).
  { intros c Hc. apply has_column_process.
    destruct (has_column "GewijzigdOp" (process_voting_data filtered));
      [|exact Hc].
    unfold has_column, select_rows in Hc. cbn [columns] in Hc.
    rewrite columns_assign_column in Hc. exact Hc. }
  destruct Hmiss as [Hm|Hm]; [left|right];
    match goal with
    | |- ?x = false => destruct x eqn:Hx; [|reflexivity]
    end; apply Hsub in Hx; congruence.
Qed.

(** X16: the numbers of the summary line: the vote count is the number of
    rows written, which is at most the number of rows of [pre_data], and
    neither the number of distinct motions nor that of distinct parties
    exceeds it. *)
Theorem main_pre_votes_counts
        (pending : list (response record)) (sent : list string)
        (pending' : list (response record)) (sent' : list string)
        (csv : DataFrame) (votes motions parties : nat) :
  main_pre_votes to_datetime pending sent
  = Some (Saved csv votes motions parties, pending', sent') ->
  votes = len csv
  /\ motions <= votes
  /\ parties <= votes
  /\ exists pre_data,
      main_pre_data to_datetime pending sent = Some (pre_data, pending', sent')
      /\ votes <= len pre_data.
Proof.
  unfold main_pre_votes.
  destruct (main_pre_data to_datetime pending sent) as [[[pre_data p] s]|];
    [|discriminate].
  intros H. injection H as Hrep <- <-.
  assert (Hcsv : csv_of (pre_report to_datetime pre_data) = Some csv)
    by (rewrite Hrep; reflexivity).
  apply pre_report_csv in Hcsv. destruct Hcsv as [E Hcsv]. cbv zeta in Hcsv.
  assert (Hnum : votes = len csv /\ motions = nunique "Besluit_Id" csv
                 /\ parties = nunique "ActorFractie" csv).
  { unfold pre_report in Hrep. rewrite E in Hrep. cbn [negb] in Hrep.
    cbv zeta in Hrep. rewrite columns_assign_column in Hrep.
    rewrite <- Hcsv in Hrep.
    destruct (has_column "Besluit_Id" csv && has_column "ActorFractie" csv);
      [|discriminate].
    injection Hrep as <- <- <-. auto. }
  destruct Hnum as [-> [-> ->]].
  split; [reflexivity|]. split; [apply nunique_le|]. split; [apply nunique_le|].
  exists pre_data. split; [reflexivity|].
  eapply Nat.le_trans; [|apply process_voting_data_length_le].
  subst csv. unfold len.
  destruct (has_column "GewijzigdOp" (process_voting_data pre_data));
    [|apply Nat.le_refl].
  unfold select_rows. cbn [rows].
  eapply Nat.le_trans; [apply filter_length_le|].
  rewrite length_rows_assign_column. apply Nat.le_refl.
Qed.

End MainVotesProperties.

Lemma main_pre_data_success_witness :
  let pending := [Json (Some sample_votes) None] in
  Paginated.fetch_paginated_data "Stemming" (Some pre_filter) pending []
  = Some (DataFrame_of sample_votes, [], requests "Stemming" (Some pre_filter) 0 1)
  /\ empty (DataFrame_of sample_votes) = false
  /\ main_pre_data parse_utc pending []
     = Some (DataFrame_of sample_votes, [],
             requests "Stemming" (Some pre_filter) 0 1).
Proof.
  intros pending.
  assert (H1 : Paginated.fetch_paginated_data "Stemming" (Some pre_filter) pending []
               = Some (DataFrame_of sample_votes, [],
                       requests "Stemming" (Some pre_filter) 0 1))
    by reflexivity.
  assert (E : empty (DataFrame_of sample_votes) = false) by reflexivity.
  split; [exact H1|]. split; [exact E|].
  exact (proj1 (main_pre_data_success parse_utc pending [] _ _ _ H1 E)).
Defined.

Lemma main_pre_votes_no_timestamps_witness :
  let votes := [[("Id", CInt 1); ("Soort", CStr "Voor")];
                [("Id", CInt 2); ("Soort", CStr "Tegen")]]%string in
  let pending := [Json (Some []) None; Json (Some votes) None] in
  Paginated.fetch_paginated_data "Stemming" (Some pre_filter) pending []
  = Some (empty_frame, [Json (Some votes) None],
          requests "Stemming" (Some pre_filter) 0 1)
  /\ len empty_frame = 0
  /\ len (DataFrame_of votes) = 2
  /\ has_column "GewijzigdOp" (DataFrame_of votes) = false
  /\ main_pre_votes parse_utc pending []
     = Some (NoData, [],
             requests "Stemming" (Some pre_filter) 0 1
             ++ requests "Stemming" None 0 1).
Proof.
  intros votes pending.
  assert (H1 : Paginated.fetch_paginated_data "Stemming" (Some pre_filter) pending []
               = Some (empty_frame, [Json (Some votes) None],
                       requests "Stemming" (Some pre_filter) 0 1))
    by reflexivity.
  assert (H2 : Paginated.fetch_paginated_data "Stemming" None
                 [Json (Some votes) None]
                 (requests "Stemming" (Some pre_filter) 0 1)
               = Some (DataFrame_of votes, [],
                       requests "Stemming" (Some pre_filter) 0 1
                       ++ requests "Stemming" None 0 1))
    by reflexivity.
  split; [exact H1|]. split; [reflexivity|]. split; [reflexivity|].
  split; [reflexivity|].
  exact (main_pre_votes_no_timestamps parse_utc pending [] _ _ _ _ _ _
           H1 eq_refl H2 eq_refl).
Defined.

Lemma main_pre_votes_within_window_witness :
  let pending := [Json (Some sample_votes) None] in
  let csv := mkDF essential_cols
                  [[CStr "b-1"; CStr "VVD"; CStr "Voor"; CTime 1669075200000000000];
                   [CStr "b-1"; CStr "SP"; CStr "Tegen"; CTime 1700611199000000000]] in
  let r := [CStr "b-1"; CStr "SP"; CStr "Tegen"; CTime 1700611199000000000] in
  main_pre_votes parse_utc pending []
  = Some (Saved csv 2 1 2, [], requests "Stemming" (Some pre_filter) 0 1)
  /\ has_column "GewijzigdOp" csv = true
  /\ In r (rows csv)
  /\ exists t, get_cell (columns csv) r "GewijzigdOp" = CTime t
               /\ (Timestamp 2022 11 22 0 0 0 <= t)%Z
               /\ (t <= Timestamp 2023 11 21 23 59 59)%Z.
Proof.
  intros pending csv r.
  assert (Hrun : main_pre_votes parse_utc pending []
                 = Some (Saved csv 2 1 2, [],
                         requests "Stemming" (Some pre_filter) 0 1))
    by (vm_compute; reflexivity).
  assert (Hr : In r (rows csv)) by (right; left; reflexivity).
  split; [exact Hrun|]. split; [reflexivity|]. split; [exact Hr|].
  exact (main_pre_votes_within_window parse_utc pending [] _ _ _ csv r
           Hrun eq_refl eq_refl Hr).
Defined.

Lemma main_pre_votes_KeyError_witness :
  let votes := [[("Soort", CStr "Voor");
                 ("GewijzigdOp", CStr "2023-01-10T12:00:00Z")]]%string in
  let pending := [Json (Some votes) None] in
  Paginated.fetch_paginated_data "Stemming" (Some pre_filter) pending []
  = Some (DataFrame_of votes, [], requests "Stemming" (Some pre_filter) 0 1)
  /\ empty (DataFrame_of votes) = false
  /\ has_column "Besluit_Id" (DataFrame_of votes)
     && has_column "ActorFractie" (DataFrame_of votes) = false
  /\ main_pre_votes parse_utc pending []
     = Some (SavedThenKeyError
               (mkDF ["Soort"; "GewijzigdOp"]%string
                     [[CStr "Voor"; CTime 1673352000000000000]]),
             [], requests "Stemming" (Some pre_filter) 0 1).
Proof.
  intros votes pending.
  assert (H1 : Paginated.fetch_paginated_data "Stemming" (Some pre_filter) pending []
               = Some (DataFrame_of votes, [],
                       requests "Stemming" (Some pre_filter) 0 1))
    by reflexivity.
  split; [exact H1|]. split; [reflexivity|]. split; [reflexivity|].
  destruct (main_pre_votes_KeyError parse_utc pending [] _ _ _ H1 eq_refl eq_refl)
    as [csv Hcsv].
  rewrite Hcsv. vm_compute in Hcsv. injection Hcsv as <-. reflexivity.
Defined.

Lemma main_pre_votes_counts_witness :
  let pending := [Json (Some sample_votes) None] in
  exists csv,
    main_pre_votes parse_utc pending []
    = Some (Saved csv 2 1 2, [], requests "Stemming" (Some pre_filter) 0 1)
    /\ 2 = len csv /\ 1 <= 2 /\ 2 <= 2.
Proof.
  intros pending.
  assert (Hrun : main_pre_votes parse_utc pending []
                 = Some (Saved
                           (mkDF essential_cols
                              [[CStr "b-1"; CStr "VVD"; CStr "Voor";
                                CTime 1669075200000000000];
                               [CStr "b-1"; CStr "SP"; CStr "Tegen";
                                CTime 1700611199000000000]])
                           2 1 2, [],
                         requests "Stemming" (Some pre_filter) 0 1))
    by (vm_compute; reflexivity).
  eexists. split; [exact Hrun|].
  destruct (main_pre_votes_counts parse_utc pending [] _ _ _ _ _ _ Hrun)
    as [Hv [Hm [Hp _]]].
  auto.
Defined.

Section WindowFilter.

(** pandas' parser, of which only one fact is used: a missing value stays
    missing (NaT). *)
Variable to_datetime : cell -> option Z.
Hypothesis to_datetime_missing : to_datetime CNA = None.

(** Converting the timestamp column and then comparing with the bounds
    selects the rows that pass the window test, converted. *)
Lemma window_after_conversion (df : DataFrame) (lo hi : Z) :
  rows (select_rows (between (columns df) "GewijzigdOp" lo hi)
          (assign_column "GewijzigdOp" (to_datetime_cell to_datetime) df))
  = rows (assign_column "GewijzigdOp" (to_datetime_cell to_datetime)
            (select_rows (within_window to_datetime lo hi (columns df)) df)).
Proof.
  unfold assign_column, select_rows. cbn [columns rows].
  destruct (column_index "GewijzigdOp" (columns df)) as [i|] eqn:Hi;
    cbn [columns rows].
  - rewrite filter_map_swap. f_equal. apply filter_ext. intros r.
    apply (between_converted to_datetime to_datetime_missing), Hi.
  - rewrite !filter_none; [reflexivity| |].
    + intros r _. apply (within_window_no_timestamp to_datetime to_datetime_missing).
      unfold get_cell. rewrite Hi. reflexivity.
    + intros r _. unfold between, get_cell. rewrite Hi. reflexivity.
Qed.

(** X17: on the success path, with a fetched frame that is not empty and
    has the four columns, [main] cleans the frame and filters it client-side
    once more: the table written has the four columns and holds exactly the
    cleaned rows whose GewijzigdOp lies in the window, converted to instants;
    the summary line gives its row count and the numbers of distinct
    motions and parties in it. *)
Theorem main_pre_votes_success
        (pending : list (response record)) (sent : list string)
        (filtered : DataFrame) (pending1 : list (response record))
        (sent1 : list string) :
  Paginated.fetch_paginated_data "Stemming" (Some pre_filter) pending sent
  = Some (filtered, pending1, sent1) ->
  empty filtered = false ->
  forallb (fun c => has_column c filtered) essential_cols = true ->
  let cleaned := process_voting_data filtered in
  exists csv,
    main_pre_votes to_datetime pending sent
    = Some (Saved csv (len csv) (nunique "Besluit_Id" csv)
                  (nunique "ActorFractie" csv),
            pending1, sent1)
    /\ columns csv = essential_cols
    /\ rows csv
       = rows (assign_column "GewijzigdOp" (to_datetime_cell to_datetime)
                 (select_rows
                    (within_window to_datetime pre_start_dt pre_end_dt
                                   (columns cleaned))
                    cleaned)).
Proof.
  intros H1 E Hfour cleaned.
  assert (Hcols : columns cleaned = essential_cols).
  { unfold cleaned. unfold has_column in Hfour.
    rewrite (process_voting_data_projected filtered E);
      rewrite (available_all _ Hfour); [reflexivity | discriminate]. }
  unfold main_pre_votes, main_pre_data. rewrite H1, E.
  unfold pre_report. rewrite E. cbn [negb]. cbv zeta. fold cleaned.
  rewrite columns_assign_column.
  assert (HG : has_column "GewijzigdOp" cleaned = true)
    by (unfold has_column; rewrite Hcols; reflexivity).
  rewrite HG.
  set (csv := select_rows
                (between (columns cleaned) "GewijzigdOp" pre_start_dt pre_end_dt)
                (assign_column "GewijzigdOp" (to_datetime_cell to_datetime) cleaned)).
  assert (Hcsv : columns csv = essential_cols).
  { unfold csv, select_rows. cbn [columns].
    rewrite columns_assign_column. exact Hcols. }
  assert (HB : has_column "Besluit_Id" csv && has_column "ActorFractie" csv = true)
    by (unfold has_column; rewrite Hcsv; reflexivity).
  rewrite HB. exists csv. split; [reflexivity|]. split; [exact Hcsv|].
  apply window_after_conversion.
Qed.

(** X18: the fallback of the post-formation window: when its date-filtered
    fetch returns zero rows, [main] fetches again without a filter, cleans
    the result, and keeps of the cleaned table exactly the rows whose
    GewijzigdOp lies in 2024-07-05 00:00:00 .. 2025-07-04 23:59:59 (UTC),
    bounds included, with that column converted to instants. *)
Theorem main_post_fallback_window
        (pending : list (response record)) (sent : list string)
        (filtered : DataFrame) (pending1 : list (response record))
        (sent1 : list string)
        (all_data : DataFrame) (pending2 : list (response record))
        (sent2 : list string) :
  Paginated.fetch_paginated_data "Stemming" (Some post_filter) pending sent
  = Some (filtered, pending1, sent1) ->
  len filtered = 0 ->
  Paginated.fetch_paginated_data "Stemming" None pending1 sent1
  = Some (all_data, pending2, sent2) ->
  let cleaned := process_voting_data all_data in
  exists post_data,
    main_post_data to_datetime pending sent = Some (post_data, pending2, sent2)
    /\ rows post_data
       = rows (assign_column "GewijzigdOp" (to_datetime_cell to_datetime)
                 (select_rows
                    (within_window to_datetime post_start_dt post_end_dt
                                   (columns cleaned))
                    cleaned))
    /\ (forall r, In r (rows post_data) ->
          exists t, get_cell (columns post_data) r "GewijzigdOp" = CTime t
                    /\ (Timestamp 2024 7 5 0 0 0 <= t)%Z
                    /\ (t <= Timestamp 2025 7 4 23 59 59)%Z).
Proof.
  intros H1 Hlen H2 cleaned.
  assert (Hrows : rows filtered = []) by (apply length_zero_iff_nil; exact Hlen).
  assert (Hempty : empty filtered = true)
    by (unfold empty; rewrite Hrows; reflexivity).
  unfold main_post_data. rewrite H1, Hempty, H2. fold cleaned.
  (* the branches that leave [post_data] as it was *)
  assert (Hnone :
            (forall r, In r (rows cleaned) ->
                       get_cell (columns cleaned) r "GewijzigdOp" = CNA) ->
            exists post_data,
              Some (filtered, pending2, sent2) = Some (post_data, pending2, sent2)
              /\ rows post_data
                 = rows (assign_column "GewijzigdOp" (to_datetime_cell to_datetime)
                           (select_rows
                              (within_window to_datetime post_start_dt post_end_dt
                                             (columns cleaned))
                              cleaned))
              /\ (forall r, In r (rows post_data) ->
                    exists t, get_cell (columns post_data) r "GewijzigdOp" = CTime t
                              /\ (Timestamp 2024 7 5 0 0 0 <= t)%Z
                              /\ (t <= Timestamp 2025 7 4 23 59 59)%Z)).
  { intros Hna. exists filtered. split; [reflexivity|].
    rewrite Hrows. split; [|intros r []].
    unfold select_rows. rewrite filter_none.
    - symmetry. apply rows_assign_column_nil.
    - intros r Hr.
      apply (within_window_no_timestamp to_datetime to_datetime_missing), Hna, Hr. }
  destruct (empty all_data) eqn:E; cbn [negb].
  { apply Hnone. intros r Hr. unfold cleaned in *.
    rewrite (process_voting_data_empty all_data E) in *.
    unfold empty in E. apply orb_true_iff in E. destruct E as [E|E];
      apply Nat.eqb_eq, length_zero_iff_nil in E.
    - rewrite E in Hr. destruct Hr.
    - rewrite E. reflexivity. }
  destruct (has_column "GewijzigdOp" cleaned) eqn:Hcol.
  2: { apply Hnone. intros r _. apply get_cell_absent, Hcol. }
  cbv zeta. rewrite columns_assign_column.
  eexists. split; [reflexivity|]. split; [apply window_after_conversion|].
  intros r Hr. unfold select_rows in *. cbn [rows columns] in *.
  apply filter_In in Hr. destruct Hr as [_ Hr].
  rewrite columns_assign_column. apply between_bounds, Hr.
Qed.

End WindowFilter.

Lemma main_pre_votes_success_witness :
  let pending := [Json (Some sample_votes) None] in
  parse_utc CNA = None
  /\ Paginated.fetch_paginated_data "Stemming" (Some pre_filter) pending []
     = Some (DataFrame_of sample_votes, [], requests "Stemming" (Some pre_filter) 0 1)
  /\ empty (DataFrame_of sample_votes) = false
  /\ forallb (fun c => has_column c (DataFrame_of sample_votes)) essential_cols = true
  /\ exists csv,
      main_pre_votes parse_utc pending []
      = Some (Saved csv 2 1 2, [], requests "Stemming" (Some pre_filter) 0 1)
      /\ columns csv = essential_cols
      /\ rows csv
         = [[CStr "b-1"; CStr "VVD"; CStr "Voor"; CTime 1669075200000000000];
            [CStr "b-1"; CStr "SP"; CStr "Tegen"; CTime 1700611199000000000]].
Proof.
  intros pending.
  assert (H1 : Paginated.fetch_paginated_data "Stemming" (Some pre_filter) pending []
               = Some (DataFrame_of sample_votes, [],
                       requests "Stemming" (Some pre_filter) 0 1))
    by reflexivity.
  split; [reflexivity|]. split; [exact H1|]. split; [reflexivity|].
  split; [reflexivity|].
  destruct (main_pre_votes_success parse_utc eq_refl pending [] _ _ _
              H1 eq_refl eq_refl) as [csv [Hrun [Hcols Hrows]]].
  exists csv. split; [|split; [exact Hcols|]].
  - rewrite Hrun. unfold len, nunique. rewrite Hcols, Hrows.
    vm_compute. reflexivity.
  - rewrite Hrows. vm_compute. reflexivity.
Defined.

Lemma main_post_fallback_window_witness :
  let votes := [sample_vote 1 "VVD" "Voor" "2024-07-05T00:00:00Z";
                sample_vote 2 "PVV" "Voor" "2024-07-04T23:59:59Z";
                sample_vote 3 "SP" "Tegen" "2025-07-04T23:59:59Z";
                sample_vote 4 "CDA" "Tegen" "2025-07-05T00:00:00Z"]%string in
  let pending := [Raised; Json (Some votes) None] in
  parse_utc CNA = None
  /\ Paginated.fetch_paginated_data "Stemming" (Some post_filter) pending []
     = Some (empty_frame, [Json (Some votes) None],
             requests "Stemming" (Some post_filter) 0 1)
  /\ exists post_data sent2,
      main_post_data parse_utc pending [] = Some (post_data, [], sent2)
      /\ rows post_data
         = [[CStr "b-1"; CStr "VVD"; CStr "Voor"; CTime (Timestamp 2024 7 5 0 0 0)];
            [CStr "b-1"; CStr "SP"; CStr "Tegen";
             CTime (Timestamp 2025 7 4 23 59 59)]].
Proof.
  intros votes pending.
  assert (H1 : Paginated.fetch_paginated_data "Stemming" (Some post_filter) pending []
               = Some (empty_frame, [Json (Some votes) None],
                       requests "Stemming" (Some post_filter) 0 1))
    by reflexivity.
  assert (H2 : Paginated.fetch_paginated_data "Stemming" None
                 [Json (Some votes) None]
                 (requests "Stemming" (Some post_filter) 0 1)
               = Some (DataFrame_of votes, [],
                       requests "Stemming" (Some post_filter) 0 1
                       ++ requests "Stemming" None 0 1))
    by reflexivity.
  split; [reflexivity|]. split; [exact H1|].
  destruct (main_post_fallback_window parse_utc eq_refl pending [] _ _ _ _ _ _
              H1 eq_refl H2) as [post_data [Hmain [Hrows _]]].
  exists post_data. eexists. split; [exact Hmain|].
  rewrite Hrows. vm_compute. reflexivity.
Defined.
